(** * nn-visualize: the neural-network playground component

    A shallow embedding of [src/components/neural-network-playground.tsx]
    (the [NeuralNetworkPlayground] React component) together with the types
    of [@/lib/types] and the conditions under which the rendering surface
    offers its buttons.

    Conventions of the embedding.
    - A JavaScript [number] that holds a measurement (dataset coordinates,
      loss, accuracy, predictions) is a real number [R]: rounding of IEEE
      doubles is not modelled. Counters and indices ([trainingProgress],
      [epochs], layer indices, [neurons]) are integers [Z].
    - [Math.random()] reads the next element of a random source, threaded
      through the code by the state monad [Rnd]; the results below hold for
      every source whose draws lie in [0, 1).
    - A JavaScript array is a list; an array of layer objects has slots of
      type [option Layer], [None] being [undefined] (a hole).
    - React state is the record [State]; the browser's table of live
      [setInterval] timers is part of it, since the handlers create and
      cancel timers. *)

From Stdlib Require Import Reals Lra Lia ZArith String.
From stdpp Require Import base option list.

Local Open Scope R_scope.

(** ** Math.random as a state monad *)

Definition RandomSource : Type := nat -> R.

Definition Rnd (A : Type) : Type := RandomSource -> A * RandomSource.

#[global] Instance Rnd_ret : MRet Rnd := fun A (a : A) g => (a, g).

#[global] Instance Rnd_bind : MBind Rnd := fun A B (f : A -> Rnd B) (m : Rnd A) g =>
  let '(a, g') := m g in f a g'.

(** [Math.random()]: the head of the source, which then advances. *)
Definition Math_random : Rnd R := fun g => (g 0%nat, fun n => g (S n)).

(** Every draw of the source is a value [Math.random()] can return. *)
Definition uniform01 (g : RandomSource) : Prop := forall n, 0 <= g n < 1.

(** [for (let i = start; ...; i++) body], run for [n] iterations. *)
Fixpoint for_loop {St : Type} (n : nat) (i : nat) (body : nat -> St -> Rnd St) (s : St) : Rnd St :=
  match n with
  | O => mret s
  | S n' => s' ← body i s; for_loop n' (S i) body s'
  end.

(** ** Types of [@/lib/types] *)

Inductive LayerType := input | hidden | output.

Inductive Activation := relu | sigmoid | tanh | linear.

(** A layer object. Every property may be absent: [activation] is optional in
    the interface, and a partial object ([updates: any]) carries only the
    properties it changes. *)
Record Layer := {
  type : option LayerType;
  neurons : option Z;
  activation : option Activation
}.

Record NetworkConfig := { layers : list (option Layer) }.

Record TrainingConfig := {
  learningRate : R;
  epochs : Z;
  batchSize : Z;
  dataset_id : string
}.

Inductive DatasetType := classification | regression.

Record Dataset := {
  inputs : list (list R);
  outputs : list (list R);
  dataset_type : DatasetType
}.

(** ** generateDataset *)

Definition xor_inputs : list (list R) := [[0; 0]; [0; 1]; [1; 0]; [1; 1]].
Definition xor_outputs : list (list R) := [[0]; [1]; [1]; [0]].

Definition circle_body (i : nat) (acc : list (list R) * list (list R)) :
    Rnd (list (list R) * list (list R)) :=
  r1 ← Math_random;
  let angle := r1 * PI * 2 in
  radius ← Math_random;
  let x := cos angle * radius in
  let y := sin angle * radius in
  mret (acc.1 ++ [[x; y]], acc.2 ++ [[if Rlt_dec radius 0.5 then 1 else 0]]).

Definition sine_body (i : nat) (acc : list (list R) * list (list R)) :
    Rnd (list (list R) * list (list R)) :=
  let x := (INR i / 100) * PI * 2 in
  mret (acc.1 ++ [[x]], acc.2 ++ [[sin x]]).

(** The value handed to [setDataset]. *)
Definition generateDataset (datasetType : string) : Rnd Dataset :=
  if String.eqb datasetType "xor" then
    mret {| inputs := xor_inputs; outputs := xor_outputs; dataset_type := classification |}
  else if String.eqb datasetType "circle" then
    acc ← for_loop 100 0 circle_body ([], []);
    mret {| inputs := acc.1; outputs := acc.2; dataset_type := classification |}
  else if String.eqb datasetType "sine" then
    acc ← for_loop 100 0 sine_body ([], []);
    mret {| inputs := acc.1; outputs := acc.2; dataset_type := regression |}
  else
    mret {| inputs := xor_inputs; outputs := xor_outputs; dataset_type := classification |}.

(** ** Network topology handlers *)

Definition defaultNetworkConfig : NetworkConfig :=
  {| layers :=
       [ Some {| type := Some input; neurons := Some 2%Z; activation := None |};
         Some {| type := Some hidden; neurons := Some 4%Z; activation := Some relu |};
         Some {| type := Some output; neurons := Some 1%Z; activation := Some sigmoid |} ] |}.

Definition handleAddLayer (networkConfig : NetworkConfig) : NetworkConfig :=
  {| layers :=
       layers networkConfig
         ++ [Some {| type := Some hidden; neurons := Some 4%Z; activation := Some relu |}] |}.

(** [Array.prototype.splice(start, 1)], the array left behind: a negative
    [start] counts from the end, a [start] past the end deletes nothing. *)
Definition splice1 {A : Type} (start : Z) (l : list A) : list A :=
  let len := Z.of_nat (length l) in
  let relStart := if (start <? 0)%Z then Z.max (len + start) 0 else Z.min start len in
  let deleteCount := Z.min 1 (len - relStart) in
  take (Z.to_nat relStart) l ++ drop (Z.to_nat (relStart + deleteCount)) l.

Definition handleRemoveLayer (index : Z) (networkConfig : NetworkConfig) : NetworkConfig :=
  (* Don't remove input or output layers *)
  if (index =? 0)%Z || (index =? Z.of_nat (length (layers networkConfig)) - 1)%Z
  then networkConfig
  else {| layers := splice1 index (layers networkConfig) |}.

(** [arr[index]] on an array of objects: [undefined] outside the array. *)
Definition array_get {A : Type} (index : Z) (l : list (option A)) : option A :=
  if (index <? 0)%Z then None else mjoin (l !! Z.to_nat index).

(** [arr[index] = v]. Past the end JavaScript grows the array and leaves holes
    before the new slot; a negative key is an ordinary property and changes
    no element. *)
Definition array_set {A : Type} (index : Z) (v : A) (l : list (option A)) : list (option A) :=
  if (index <? 0)%Z then l
  else
    let i := Z.to_nat index in
    if (i <? length l)%nat then <[i := Some v]> l
    else l ++ replicate (i - length l) None ++ [Some v].

(** One property of [{...a, ...b}]: [b]'s value when [b] has the property. *)
Definition override {A : Type} (a b : option A) : option A :=
  match b with Some v => Some v | None => a end.

(** [{...a, ...updates}]; spreading [undefined] contributes nothing. *)
Definition spread (a : option Layer) (updates : Layer) : Layer :=
  match a with
  | None => updates
  | Some a =>
      {| type := override (type a) (type updates);
         neurons := override (neurons a) (neurons updates);
         activation := override (activation a) (activation updates) |}
  end.

Definition handleUpdateLayer (index : Z) (updates : Layer) (networkConfig : NetworkConfig) :
    NetworkConfig :=
  let newLayers := layers networkConfig in
  {| layers := array_set index (spread (array_get index newLayers) updates) newLayers |}.

(** The calls the control surface makes on the topology. *)
Inductive TopologyOp :=
  | AddHiddenLayer
  | RemoveLayer (index : Z)
  | UpdateLayer (index : Z) (updates : Layer).

Definition apply_op (c : NetworkConfig) (op : TopologyOp) : NetworkConfig :=
  match op with
  | AddHiddenLayer => handleAddLayer c
  | RemoveLayer index => handleRemoveLayer index c
  | UpdateLayer index updates => handleUpdateLayer index updates c
  end.

Definition apply_ops (ops : list TopologyOp) (c : NetworkConfig) : NetworkConfig :=
  foldl apply_op c ops.

(** The kind of the layer in a slot ([None] for a hole or a missing [type]). *)
Definition slot_kind (slot : option Layer) : option LayerType := slot ≫= type.

(** First layer is the input layer, last layer is the output layer. *)
Definition topology_invariant (c : NetworkConfig) : Prop :=
  head (layers c) ≫= slot_kind = Some input /\ last (layers c) ≫= slot_kind = Some output.

(** The designer renders a remove button for layer [index] unless it is the
    first or the last position ([index !== 0 && index !== length - 1]). *)
Definition removeButtonShown (index : Z) (c : NetworkConfig) : bool :=
  negb (index =? 0)%Z && negb (index =? Z.of_nat (length (layers c)) - 1)%Z.

(** ** Component state *)

Record Stats := { loss : list R; accuracy : list R }.

(** An entry of [predictions]. [actual] is [None] when the output row has no
    first component ([undefined]); [predicted] is then [None] ([NaN]). *)
Record Prediction := {
  pred_input : list R;
  actual : option R;
  predicted : option R
}.

(** A live [setInterval] timer; its callback closes over the
    [trainingConfig.epochs] of the render that started it. *)
Record Timer := { timer_id : nat; timer_epochs : Z }.

Record State := {
  networkConfig : NetworkConfig;
  trainingConfig : TrainingConfig;
  isTraining : bool;
  trainingProgress : Z;
  trainingStats : Stats;
  predictions : list Prediction;
  dataset : Dataset;
  intervals : list Timer;
  next_interval_id : nat
}.

Definition setNetworkConfig (v : NetworkConfig) (s : State) : State :=
  {| networkConfig := v; trainingConfig := trainingConfig s; isTraining := isTraining s;
     trainingProgress := trainingProgress s; trainingStats := trainingStats s;
     predictions := predictions s; dataset := dataset s; intervals := intervals s;
     next_interval_id := next_interval_id s |}.

Definition setTrainingConfig (v : TrainingConfig) (s : State) : State :=
  {| networkConfig := networkConfig s; trainingConfig := v; isTraining := isTraining s;
     trainingProgress := trainingProgress s; trainingStats := trainingStats s;
     predictions := predictions s; dataset := dataset s; intervals := intervals s;
     next_interval_id := next_interval_id s |}.

Definition setIsTraining (v : bool) (s : State) : State :=
  {| networkConfig := networkConfig s; trainingConfig := trainingConfig s; isTraining := v;
     trainingProgress := trainingProgress s; trainingStats := trainingStats s;
     predictions := predictions s; dataset := dataset s; intervals := intervals s;
     next_interval_id := next_interval_id s |}.

Definition setTrainingProgress (v : Z) (s : State) : State :=
  {| networkConfig := networkConfig s; trainingConfig := trainingConfig s;
     isTraining := isTraining s; trainingProgress := v; trainingStats := trainingStats s;
     predictions := predictions s; dataset := dataset s; intervals := intervals s;
     next_interval_id := next_interval_id s |}.

Definition setTrainingStats (v : Stats) (s : State) : State :=
  {| networkConfig := networkConfig s; trainingConfig := trainingConfig s;
     isTraining := isTraining s; trainingProgress := trainingProgress s; trainingStats := v;
     predictions := predictions s; dataset := dataset s; intervals := intervals s;
     next_interval_id := next_interval_id s |}.

Definition setPredictions (v : list Prediction) (s : State) : State :=
  {| networkConfig := networkConfig s; trainingConfig := trainingConfig s;
     isTraining := isTraining s; trainingProgress := trainingProgress s;
     trainingStats := trainingStats s; predictions := v; dataset := dataset s;
     intervals := intervals s; next_interval_id := next_interval_id s |}.

Definition setDataset (v : Dataset) (s : State) : State :=
  {| networkConfig := networkConfig s; trainingConfig := trainingConfig s;
     isTraining := isTraining s; trainingProgress := trainingProgress s;
     trainingStats := trainingStats s; predictions := predictions s; dataset := v;
     intervals := intervals s; next_interval_id := next_interval_id s |}.

(** [setInterval(callback, 100)]: registers a timer under a fresh id. *)
Definition setInterval (captured_epochs : Z) (s : State) : State :=
  {| networkConfig := networkConfig s; trainingConfig := trainingConfig s;
     isTraining := isTraining s; trainingProgress := trainingProgress s;
     trainingStats := trainingStats s; predictions := predictions s; dataset := dataset s;
     intervals :=
       intervals s ++ [{| timer_id := next_interval_id s; timer_epochs := captured_epochs |}];
     next_interval_id := S (next_interval_id s) |}.

(** [clearInterval(tid)]. *)
Definition clearInterval (tid : nat) (s : State) : State :=
  {| networkConfig := networkConfig s; trainingConfig := trainingConfig s;
     isTraining := isTraining s; trainingProgress := trainingProgress s;
     trainingStats := trainingStats s; predictions := predictions s; dataset := dataset s;
     intervals := filter (fun t => timer_id t ≠ tid) (intervals s);
     next_interval_id := next_interval_id s |}.

Definition emptyStats : Stats := {| loss := []; accuracy := [] |}.

(** The [useState] initial values. *)
Definition initialState : State :=
  {| networkConfig := defaultNetworkConfig;
     trainingConfig :=
       {| learningRate := 0.03; epochs := 100; batchSize := 32; dataset_id := "xor" |};
     isTraining := false;
     trainingProgress := 0;
     trainingStats := emptyStats;
     predictions := [];
     dataset := {| inputs := []; outputs := []; dataset_type := classification |};
     intervals := [];
     next_interval_id := 1 |}.

(** ** Training handlers *)

Definition startTraining (s : State) : State :=
  let s := setIsTraining true s in
  let s := setTrainingProgress 0 s in
  let s := setTrainingStats emptyStats s in
  (* Simulate training progress *)
  setInterval (epochs (trainingConfig s)) s.

(** The interval callback of timer [tm]: the updater handed to
    [setTrainingProgress], with the [setTrainingStats] updater it queues. *)
Definition interval_callback (tm : Timer) (s : State) : Rnd State :=
  let prev := trainingProgress s in
  let newProgress := (prev + 1)%Z in
  if (newProgress >=? timer_epochs tm)%Z then
    let s := clearInterval (timer_id tm) s in
    let s := setIsTraining false s in
    mret (setTrainingProgress (timer_epochs tm) s)
  else
    (* Simulate decreasing loss and increasing accuracy *)
    let prevStats := trainingStats s in
    r1 ← Math_random;
    let newLoss :=
      loss prevStats ++ [Rmax 0.1 (1 - IZR newProgress / IZR (timer_epochs tm) + r1 * 0.1)] in
    r2 ← Math_random;
    let newAccuracy :=
      accuracy prevStats ++ [Rmin 0.98 (IZR newProgress / IZR (timer_epochs tm) + r2 * 0.1)] in
    let s := setTrainingStats {| loss := newLoss; accuracy := newAccuracy |} s in
    mret (setTrainingProgress newProgress s).

Definition find_timer (tid : nat) (s : State) : option Timer :=
  List.find (fun t => Nat.eqb (timer_id t) tid) (intervals s).

(** The browser fires timer [tid]: a timer that is not live never fires. *)
Definition tick (tid : nat) (s : State) : Rnd State :=
  match find_timer tid s with
  | Some tm => interval_callback tm s
  | None => mret s
  end.

(** Timer [tid] is left to run until it is cancelled; the result is the number
    of ticks it delivered and the state it leaves, or [None] when [fuel]
    ticks were not enough. *)
Fixpoint run_interval (fuel : nat) (tid : nat) (s : State) : Rnd (option (nat * State)) :=
  match find_timer tid s with
  | None => mret (Some (O, s))
  | Some tm =>
      match fuel with
      | O => mret None
      | S fuel' =>
          s' ← interval_callback tm s;
          r ← run_interval fuel' tid s';
          mret ((fun r => (S r.1, r.2)) <$> r)
      end
  end.

Definition stopTraining (s : State) : State :=
  setIsTraining false s.

Definition resetTraining (s : State) : State :=
  let s := setTrainingProgress 0 s in
  let s := setTrainingStats emptyStats s in
  setPredictions [] s.

(** ** Predictions *)

(** The callback of [dataset.inputs.map]; [None] is the [TypeError] raised by
    [dataset.outputs[index][0]] when [dataset.outputs[index]] is [undefined]. *)
Definition predict_sample (d : Dataset) (input : list R) (index : nat) : Rnd (option Prediction) :=
  match outputs d !! index with
  | None => mret None
  | Some row =>
      (* For demonstration, we'll just add some noise to the actual outputs *)
      let actual := row !! 0%nat in
      r ← Math_random;
      let predicted := (fun a => Rmin 1 (Rmax 0 (a + (r * 0.3 - 0.15)))) <$> actual in
      mret (Some {| pred_input := input; actual := actual; predicted := predicted |})
  end.

(** [Array.prototype.map] with a callback that may throw, from [index] on. *)
Fixpoint array_map {A B : Type} (f : A -> nat -> Rnd (option B)) (index : nat) (l : list A) :
    Rnd (option (list B)) :=
  match l with
  | [] => mret (Some [])
  | a :: l' =>
      ob ← f a index;
      match ob with
      | None => mret None
      | Some b => rest ← array_map f (S index) l'; mret (cons b <$> rest)
      end
  end.

Definition simulatedPredictions (d : Dataset) : Rnd (option (list Prediction)) :=
  array_map (predict_sample d) 0 (inputs d).

(** An exception leaves the state as it was ([setPredictions] is not reached). *)
Definition makePredictions (s : State) : Rnd State :=
  r ← simulatedPredictions (dataset s);
  match r with
  | Some ps => mret (setPredictions ps s)
  | None => mret s
  end.

(** ** Rendering surface *)

(** [<Button onClick={makePredictions} disabled={trainingProgress === 0}>]:
    a disabled button delivers no click. *)
Definition runPredictionsDisabled (s : State) : bool := (trainingProgress s =? 0)%Z.

Definition clickRunPredictions (s : State) : Rnd State :=
  if runPredictionsDisabled s then mret s else makePredictions s.

(** [{!isTraining ? <Button onClick={startTraining}> : <Button onClick={stopTraining}>}]. *)
Definition clickStartStop (s : State) : State :=
  if isTraining s then stopTraining s else startTraining s.

Definition clickReset (s : State) : State := resetTraining s.

(** The [useEffect] that runs once after the first render. *)
Definition mount (s : State) : Rnd State :=
  d ← generateDataset (dataset_id (trainingConfig s));
  mret (setDataset d s).

(** [handleTrainingConfigChange(key, value)], one constructor per key the
    controls use. *)
Inductive ConfigChange :=
  | ChangeDataset (value : string)
  | ChangeLearningRate (value : R)
  | ChangeEpochs (value : Z)
  | ChangeBatchSize (value : Z).

Definition handleTrainingConfigChange (change : ConfigChange) (s : State) : Rnd State :=
  let c := trainingConfig s in
  match change with
  | ChangeDataset value =>
      let s := setTrainingConfig
                 {| learningRate := learningRate c; epochs := epochs c;
                    batchSize := batchSize c; dataset_id := value |} s in
      d ← generateDataset value;
      mret (setDataset d s)
  | ChangeLearningRate value =>
      mret (setTrainingConfig
              {| learningRate := value; epochs := epochs c;
                 batchSize := batchSize c; dataset_id := dataset_id c |} s)
  | ChangeEpochs value =>
      mret (setTrainingConfig
              {| learningRate := learningRate c; epochs := value;
                 batchSize := batchSize c; dataset_id := dataset_id c |} s)
  | ChangeBatchSize value =>
      mret (setTrainingConfig
              {| learningRate := learningRate c; epochs := epochs c;
                 batchSize := value; dataset_id := dataset_id c |} s)
  end.

(** The initial state after the epochs slider was moved to [E]. *)
Definition initialStateWithEpochs (E : Z) : State :=
  (handleTrainingConfigChange (ChangeEpochs E) initialState (fun _ => 0)).1.

(** The prediction [makePredictions] computes for an input whose output row
    is [row], when [Math.random()] returned [r]. *)
Definition prediction_of (input row : list R) (r : R) : Prediction :=
  {| pred_input := input;
     actual := row !! 0%nat;
     predicted := (fun a => Rmin 1 (Rmax 0 (a + (r * 0.3 - 0.15)))) <$> row !! 0%nat |}.

(** The XOR truth table as a dataset (what [generateDataset "xor"] yields). *)
Definition xorDataset : Dataset :=
  {| inputs := xor_inputs; outputs := xor_outputs; dataset_type := classification |}.

(** The sample the [j]-th iteration of the circle loop pushes: the loop draws
    the angle first and the radius second. *)
Definition circle_angle (g : RandomSource) (j : nat) : R := g (2 * j)%nat * PI * 2.
Definition circle_radius (g : RandomSource) (j : nat) : R := g (S (2 * j)).

Definition circle_input (g : RandomSource) (j : nat) : list R :=
  [cos (circle_angle g j) * circle_radius g j; sin (circle_angle g j) * circle_radius g j].

Definition circle_output (g : RandomSource) (j : nat) : list R :=
  [if Rlt_dec (circle_radius g j) 0.5 then 1 else 0].

(** [n] successive firings of timer [tid]. *)
Fixpoint ticks (n : nat) (tid : nat) (s : State) : Rnd State :=
  match n with
  | O => mret s
  | S n' => s' ← tick tid s; ticks n' tid s'
  end.

(** ** Network designer: the controls of [NetworkDesigner]

    One card per layer ([config.layers.map((layer, index) => ...)]) and the
    Add Hidden Layer button. *)

Inductive DesignerEvent :=
  | ClickAddLayer
  | ClickRemoveLayer (index : nat)
  | ChangeNeurons (index : nat) (parsed : option Z)
  | ChangeActivation (index : nat) (value : Activation).

(** [Number.parseInt(e.target.value) || 1]; [parsed = None] is [NaN]. *)
Definition parsed_or_one (parsed : option Z) : Z :=
  match parsed with
  | Some n => if (n =? 0)%Z then 1%Z else n
  | None => 1%Z
  end.

Definition is_input (l : Layer) : bool :=
  match type l with Some input => true | _ => false end.

Definition is_output (l : Layer) : bool :=
  match type l with Some output => true | _ => false end.

(** Whether the control that raises the event is on the page and enabled:
    the remove button is rendered when [index !== 0 && index !==
    config.layers.length - 1], the neurons input is disabled when
    [layer.type === "input" || layer.type === "output"], the activation select
    is rendered when [layer.type !== "input"]. *)
Definition event_enabled (c : NetworkConfig) (ev : DesignerEvent) : bool :=
  match ev with
  | ClickAddLayer => true
  | ClickRemoveLayer index =>
      match array_get (Z.of_nat index) (layers c) with
      | Some _ => removeButtonShown (Z.of_nat index) c
      | None => false
      end
  | ChangeNeurons index _ =>
      match array_get (Z.of_nat index) (layers c) with
      | Some layer => negb (is_input layer || is_output layer)
      | None => false
      end
  | ChangeActivation index _ =>
      match array_get (Z.of_nat index) (layers c) with
      | Some layer => negb (is_input layer)
      | None => false
      end
  end.

(** The handler call each control makes. *)
Definition handle_event (c : NetworkConfig) (ev : DesignerEvent) : NetworkConfig :=
  match ev with
  | ClickAddLayer => handleAddLayer c
  | ClickRemoveLayer index => handleRemoveLayer (Z.of_nat index) c
  | ChangeNeurons index parsed =>
      handleUpdateLayer (Z.of_nat index)
        {| type := None; neurons := Some (parsed_or_one parsed); activation := None |} c
  | ChangeActivation index value =>
      handleUpdateLayer (Z.of_nat index)
        {| type := None; neurons := None; activation := Some value |} c
  end.

(** The topologies a user can reach from the default one. *)
Inductive designer_reachable : NetworkConfig -> Prop :=
  | reachable_default : designer_reachable defaultNetworkConfig
  | reachable_event (c : NetworkConfig) (ev : DesignerEvent) :
      designer_reachable c -> event_enabled c ev = true ->
      designer_reachable (handle_event c ev).

(** A layer the designer can show behind the input layer: hidden or output,
    with a non-zero neuron count and an activation. *)
Definition inner_layer (slot : option Layer) : Prop :=
  exists (t : LayerType) (n : Z) (a : Activation),
    slot = Some {| type := Some t; neurons := Some n; activation := Some a |} /\
    t ≠ input /\ n ≠ 0%Z.

Definition inputLayer : Layer :=
  {| type := Some input; neurons := Some 2%Z; activation := None |}.

(** The range of a recorded loss value and of a recorded accuracy value. *)
Definition loss_range (v : R) : Prop := 0.1 <= v < 1.1.
Definition accuracy_range (v : R) : Prop := 0 < v <= 0.98.

(** ** PredictionVisualizer: the two summary panels *)

(** [x > y] and [x <= y] on JavaScript numbers with a constant right-hand
    side; a comparison with [undefined] or [NaN] ([None]) is false. *)
Definition js_gt (x : option R) (y : R) : bool :=
  match x with Some v => if Rlt_dec y v then true else false | None => false end.

Definition js_le (x : option R) (y : R) : bool :=
  match x with Some v => if Rle_dec v y then true else false | None => false end.

(** [(p.predicted > 0.5 && p.actual > 0.5) || (p.predicted <= 0.5 && p.actual <= 0.5)]. *)
Definition isCorrect (p : Prediction) : bool :=
  (js_gt (predicted p) 0.5 && js_gt (actual p) 0.5)
  || (js_le (predicted p) 0.5 && js_le (actual p) 0.5).

(** [Math.abs(p.predicted - p.actual)]; [None] is [NaN]. *)
Definition abs_error (p : Prediction) : option R :=
  match predicted p, actual p with
  | Some x, Some a => Some (Rabs (x - a))
  | _, _ => None
  end.

(** [predictions.reduce((sum, p) => sum + Math.abs(p.predicted - p.actual), 0)]. *)
Definition sum_abs_error (ps : list Prediction) : option R :=
  fold_left
    (fun sum p => match sum, abs_error p with Some s, Some e => Some (s + e) | _, _ => None end)
    ps (Some 0).

(** The numbers behind the two panels, before [toFixed] formats them. *)
Record Panels := { accuracyPercent : R; meanError : option R }.

(** With no predictions the component returns its placeholder instead of the
    panels ([if (predictions.length === 0) return ...]). *)
Definition predictionPanels (ps : list Prediction) : option Panels :=
  match ps with
  | [] => None
  | _ :: _ =>
      Some {| accuracyPercent :=
                INR (length (List.filter isCorrect ps)) / INR (length ps) * 100;
              meanError := (fun sum => sum / INR (length ps)) <$> sum_abs_error ps |}
  end.

(** Every sample's first output component satisfies [P]. *)
Definition labels_satisfy (P : R -> Prop) (d : Dataset) : Prop :=
  Forall (fun row => exists a, row !! 0%nat = Some a /\ P a) (outputs d).

Definition binary_label (a : R) : Prop := a = 0 \/ a = 1.

Definition unit_label (a : R) : Prop := 0 <= a <= 1.
Definition sine_value (a : R) : Prop := -1 <= a <= 1.

(** ** NetworkDesigner: layout of the diagram

    The layout code reads [layer.type] and [layer.neurons] of every slot; it
    is embedded on the typed view of the layer list, one pair (kind, neuron
    count) per layer. *)

Definition typed_layer (slot : option Layer) : option (LayerType * Z) :=
  layer ← slot; t ← type layer; n ← neurons layer; Some (t, n).

Definition typed_layers (c : NetworkConfig) : option (list (LayerType * Z)) :=
  mapM typed_layer (layers c).

Record Neuron := {
  neuron_x : R;
  neuron_y : R;
  layerIndex : nat;
  neuronIndex : nat;
  neuron_type : LayerType
}.


(** [Array.from({ length: n }).map((_, index) => f(index))]. A length that is
    not positive gives the empty array; a length of 2^32 or more is a
    [RangeError] (invalid array length), here [None]. *)
Definition array_from_length {A : Type} (n : Z) (f : nat -> A) : option (list A) :=
  if (4294967296 <=? n)%Z then None else Some (f <$> seq 0 (Z.to_nat n)).

(** The height the resize effect stores:
    [Math.max(400, layers.reduce((max, layer) => Math.max(max, layer.neurons * 40), 0) + 80)]. *)
Definition svgHeight (tl : list (LayerType * Z)) : R :=
  Rmax 400 (fold_left (fun max layer => Rmax max (IZR layer.2 * 40)) tl 0 + 80).

(** The callback of [config.layers.flatMap]. *)
Definition layerNeurons (width height : R) (layerCount : nat)
    (index : nat) (layer : LayerType * Z) : option (list Neuron) :=
  let layerWidth := width / (INR layerCount + 1) in
  let x := (INR index + 1) * layerWidth in
  let neuronCount := layer.2 in
  let layerHeight := IZR neuronCount * 40 in
  let startY := (height - layerHeight) / 2 + 20 in
  array_from_length neuronCount
    (fun k =>
       {| neuron_x := x; neuron_y := startY + INR k * 40;
          layerIndex := index; neuronIndex := k; neuron_type := layer.1 |}).

(** [Array.prototype.flatMap] with a callback that may throw, from [index]
    on: the first exception ends the whole call. *)
Fixpoint array_flatMap {A B : Type} (f : nat -> A -> option (list B)) (index : nat)
    (l : list A) : option (list B) :=
  match l with
  | [] => Some []
  | a :: l' =>
      bs ← f index a;
      rest ← array_flatMap f (S index) l';
      Some (bs ++ rest)
  end.

Definition designerNeurons (width height : R) (tl : list (LayerType * Z)) :
    option (list Neuron) :=
  array_flatMap (layerNeurons width height (length tl)) 0 tl.




(** Neurons actually drawn for a layer. *)
Definition drawn (layer : LayerType * Z) : nat := Z.to_nat layer.2.

(** A layer whose neuron count [Array.from] accepts. *)
Definition drawable (layer : LayerType * Z) : Prop := (layer.2 < 4294967296)%Z.

(** The column of neurons of one layer, in closed form. *)
Definition columnNeurons (width height : R) (layerCount : nat)
    (index : nat) (layer : LayerType * Z) : list Neuron :=
  (fun k =>
     {| neuron_x := (INR index + 1) * (width / (INR layerCount + 1));
        neuron_y := (height - IZR layer.2 * 40) / 2 + 20 + INR k * 40;
        layerIndex := index; neuronIndex := k; neuron_type := layer.1 |})
  <$> seq 0 (drawn layer).



(** ** Canvas axes of the two visualizers *)







(** Chart abscissa of the [i]-th of [n] values:
    [padding + (i / (n - 1)) * chartWidth] with [padding = 30]. *)
Definition chart_x (width : R) (n i : nat) : R :=
  let padding := 30 in
  let chartWidth := width - padding * 2 in
  padding + INR i / (INR n - 1) * chartWidth.

(** Chart ordinate of a value: [padding + (1 - value) * chartHeight]. *)
Definition chart_y (height : R) (value : R) : R :=
  let padding := 30 in
  let chartHeight := height - padding * 2 in
  padding + (1 - value) * chartHeight.

(** ** Specification-side vocabulary *)

(** clamp(x, lo, hi). *)
Definition clamp (x lo hi : R) : R := Rmin hi (Rmax lo x).

(** uniformRandom(lo, hi), as a function of the underlying draw [r] in [0, 1). *)
Definition uniformRandom (lo hi r : R) : R := lo + r * (hi - lo).

(** A dataset read as a sequence of samples: as many outputs as inputs, and
    every output vector has a first component. *)
Definition samples_ok (d : Dataset) : Prop :=
  length (inputs d) = length (outputs d) /\ Forall (fun row => row ≠ []) (outputs d).

(** 0/1 encoding of a truth value. *)
Definition bit (b : bool) : R := if b then 1 else 0.

Definition boolean_pairs : list (bool * bool) :=
  [(false, false); (false, true); (true, false); (true, true)].

(** Euclidean distance of the point [(x, y)] from the origin. *)
Definition dist0 (x y : R) : R := sqrt (x * x + y * y).

(** * Properties *)

(** ** Dataset generator: XOR and the fallback *)

Lemma generateDataset_xor_fallback (g : RandomSource) (datasetType : string) :
  datasetType ≠ "xor"%string ->
  datasetType ≠ "circle"%string ->
  datasetType ≠ "sine"%string ->
  (generateDataset datasetType g).1 = xorDataset /\
  generateDataset datasetType g = generateDataset "xor" g.
Proof.
  intros Hx Hc Hs. unfold generateDataset.
  apply String.eqb_neq in Hx, Hc, Hs. rewrite Hx, Hc, Hs. split; reflexivity.
Qed.

(** C6. [generateDataset "xor"] yields exactly four samples, the four boolean
    pairs in the order (0,0), (0,1), (1,0), (1,1) with their XOR truth values
    as outputs, of kind classification; and every identifier other than
    "xor", "circle" and "sine" yields that same dataset. *)
Theorem generateDataset_xor_and_fallback (g : RandomSource) :
  length (inputs (generateDataset "xor" g).1) = 4%nat /\
  length (outputs (generateDataset "xor" g).1) = 4%nat /\
  inputs (generateDataset "xor" g).1 = (fun p => [bit p.1; bit p.2]) <$> boolean_pairs /\
  outputs (generateDataset "xor" g).1 = (fun p => [bit (xorb p.1 p.2)]) <$> boolean_pairs /\
  dataset_type (generateDataset "xor" g).1 = classification /\
  forall datasetType : string,
    datasetType ≠ "xor"%string ->
    datasetType ≠ "circle"%string ->
    datasetType ≠ "sine"%string ->
    generateDataset datasetType g = generateDataset "xor" g.
Proof.
  do 5 (split; [reflexivity |]).
  intros datasetType Hx Hc Hs. apply generateDataset_xor_fallback; assumption.
Qed.

Lemma generateDataset_xor_and_fallback_witness :
  inputs (generateDataset "mnist" (fun _ => 0)).1 = [[0; 0]; [0; 1]; [1; 0]; [1; 1]] /\
  outputs (generateDataset "mnist" (fun _ => 0)).1 = [[0]; [1]; [1]; [0]].
Proof.
  destruct (generateDataset_xor_and_fallback (fun _ => 0)) as (_ & _ & Hi & Ho & _ & Heq).
  rewrite (Heq "mnist"%string) by discriminate.
  split; [exact Hi | exact Ho].
Defined.

(** ** Dataset generator: sine and circle *)

Lemma for_loop_sine (n : nat) :
  forall (i0 : nat) (ins outs : list (list R)) (g : RandomSource),
    for_loop n i0 sine_body (ins, outs) g
    = ((ins ++ ((fun i => [INR i / 100 * PI * 2]) <$> seq i0 n),
        outs ++ ((fun i => [sin (INR i / 100 * PI * 2)]) <$> seq i0 n)), g).
Proof.
  induction n as [| n IH]; intros i0 ins outs g.
  - cbn. rewrite !app_nil_r. reflexivity.
  - cbn [for_loop]. unfold mbind, Rnd_bind. unfold sine_body at 1. unfold mret, Rnd_ret.
    rewrite IH. cbn [fst snd seq fmap list_fmap]. rewrite <- !app_assoc. reflexivity.
Qed.

Lemma generateDataset_sine (g : RandomSource) :
  generateDataset "sine" g
  = ({| inputs := (fun i => [INR i / 100 * PI * 2]) <$> seq 0 100;
        outputs := (fun i => [sin (INR i / 100 * PI * 2)]) <$> seq 0 100;
        dataset_type := regression |}, g).
Proof.
  unfold generateDataset.
  change (String.eqb "sine" "xor") with false.
  change (String.eqb "sine" "circle") with false.
  change (String.eqb "sine" "sine") with true.
  cbv iota. unfold mbind, Rnd_bind. rewrite for_loop_sine. reflexivity.
Qed.

(** C8. [generateDataset "sine"] yields exactly 100 samples of kind
    regression; for [i = 0..99] the [i]-th input is the single coordinate
    [(i/100)·2π], which lies in [0, 2π), and the [i]-th output is its sine. *)
Theorem generateDataset_sine_spec (g : RandomSource) :
  length (inputs (generateDataset "sine" g).1) = 100%nat /\
  length (outputs (generateDataset "sine" g).1) = 100%nat /\
  dataset_type (generateDataset "sine" g).1 = regression /\
  forall i : nat,
    (i < 100)%nat ->
    inputs (generateDataset "sine" g).1 !! i = Some [INR i / 100 * (2 * PI)] /\
    outputs (generateDataset "sine" g).1 !! i = Some [sin (INR i / 100 * (2 * PI))] /\
    0 <= INR i / 100 * (2 * PI) < 2 * PI.
Proof.
  rewrite generateDataset_sine. cbn [fst inputs outputs dataset_type].
  rewrite !length_fmap, !length_seq.
  do 3 (split; [reflexivity |]).
  intros i Hi.
  rewrite !list_lookup_fmap, !lookup_seq_lt by exact Hi. cbn [fmap option_fmap option_map Nat.add].
  replace (INR i / 100 * PI * 2) with (INR i / 100 * (2 * PI)) by lra.
  split; [reflexivity |]. split; [reflexivity |].
  assert (H0 : 0 <= INR i) by apply pos_INR.
  assert (H1 : INR i < 100).
  { replace 100 with (INR 100) by (simpl; lra). apply lt_INR. exact Hi. }
  assert (Hpi := PI_RGT_0).
  split.
  - apply Rmult_le_pos; lra.
  - rewrite <- (Rmult_1_l (2 * PI)) at 2. apply Rmult_lt_compat_r; lra.
Qed.

Lemma generateDataset_sine_spec_witness :
  length (inputs (generateDataset "sine" (fun _ => 0)).1) = 100%nat /\
  outputs (generateDataset "sine" (fun _ => 0)).1 !! 25%nat
  = Some [sin (INR 25 / 100 * (2 * PI))].
Proof.
  destruct (generateDataset_sine_spec (fun _ => 0)) as (Hlen & _ & _ & Hnth).
  split; [exact Hlen |].
  apply (Hnth 25%nat). lia.
Defined.

Lemma for_loop_circle (n : nat) :
  forall (i0 : nat) (ins outs : list (list R)) (g : RandomSource),
    (for_loop n i0 circle_body (ins, outs) g).1
    = (ins ++ (circle_input g <$> seq 0 n), outs ++ (circle_output g <$> seq 0 n)).
Proof.
  induction n as [| n IH]; intros i0 ins outs g.
  - cbn. rewrite !app_nil_r. reflexivity.
  - cbn [for_loop]. unfold mbind, Rnd_bind. unfold circle_body at 1.
    unfold mbind, Rnd_bind, Math_random, mret, Rnd_ret. cbn [fst snd].
    rewrite IH. rewrite <- !app_assoc.
    cbn [seq fmap list_fmap]. rewrite <- !fmap_S_seq, <- !list_fmap_compose.
    f_equal; f_equal; cbn [app]; f_equal; try reflexivity;
      apply list_fmap_ext; intros _ j _; cbn [compose];
      unfold circle_input, circle_output, circle_angle, circle_radius;
      replace (2 * S j)%nat with (S (S (2 * j))) by lia; reflexivity.
Qed.

Lemma generateDataset_circle (g : RandomSource) :
  (generateDataset "circle" g).1
  = {| inputs := circle_input g <$> seq 0 100;
       outputs := circle_output g <$> seq 0 100;
       dataset_type := classification |}.
Proof.
  unfold generateDataset.
  change (String.eqb "circle" "xor") with false.
  change (String.eqb "circle" "circle") with true.
  cbv iota. unfold mbind, Rnd_bind.
  assert (H := for_loop_circle 100 0 [] [] g).
  destruct (for_loop 100 0 circle_body ([], []) g) as [acc g'].
  cbn [fst] in H. rewrite H. reflexivity.
Qed.

Lemma circle_point_norm (angle radius : R) :
  0 <= radius -> dist0 (cos angle * radius) (sin angle * radius) = radius.
Proof.
  intros Hr. unfold dist0.
  replace (cos angle * radius * (cos angle * radius) + sin angle * radius * (sin angle * radius))
    with ((Rsqr (sin angle) + Rsqr (cos angle)) * (radius * radius))
    by (unfold Rsqr; ring).
  rewrite sin2_cos2, Rmult_1_l. apply sqrt_square, Hr.
Qed.

(** Each iteration of the circle loop consumes two draws. *)
Lemma for_loop_circle_source (n : nat) :
  forall (i0 : nat) (acc : list (list R) * list (list R)) (g : RandomSource) (m : nat),
    (for_loop n i0 circle_body acc g).2 m = g (2 * n + m)%nat.
Proof.
  induction n as [| n IH]; intros i0 acc g m.
  - reflexivity.
  - cbn [for_loop]. unfold mbind, Rnd_bind. unfold circle_body at 1.
    unfold mbind, Rnd_bind, Math_random, mret, Rnd_ret.
    rewrite IH. f_equal. lia.
Qed.

Lemma generateDataset_circle_source (g : RandomSource) (m : nat) :
  (generateDataset "circle" g).2 m = g (200 + m)%nat.
Proof.
  unfold generateDataset.
  change (String.eqb "circle" "xor") with false.
  change (String.eqb "circle" "circle") with true.
  cbv iota. unfold mbind, Rnd_bind.
  assert (H := for_loop_circle_source 100 0 ([], []) g m).
  destruct (for_loop 100 0 circle_body ([], []) g) as [acc g'].
  cbn [snd] in H. cbn [mret Rnd_ret snd]. exact H.
Qed.

(** C7. [generateDataset "circle"] yields exactly 100 samples of kind
    classification, drawing twice per sample: the [i]-th sample takes draw
    [2i] for its angle, [angle = draw · π · 2] in [0, 2π), and draw [2i + 1]
    as its radius in [0, 1). Whatever the draws, its input is the point
    [(cos angle · radius, sin angle · radius)], whose distance from the
    origin is the drawn radius and so is below 1, and its label is 1 if and
    only if the drawn radius is below 0.5, and 0 otherwise. *)
Theorem generateDataset_circle_spec (g : RandomSource) :
  uniform01 g ->
  length (inputs (generateDataset "circle" g).1) = 100%nat /\
  length (outputs (generateDataset "circle" g).1) = 100%nat /\
  dataset_type (generateDataset "circle" g).1 = classification /\
  (forall m : nat, (generateDataset "circle" g).2 m = g (200 + m)%nat) /\
  forall i : nat,
    (i < 100)%nat ->
    let angle := g (2 * i)%nat * PI * 2 in
    let radius := g (S (2 * i)) in
    0 <= angle < 2 * PI /\
    0 <= radius < 1 /\
    inputs (generateDataset "circle" g).1 !! i = Some [cos angle * radius; sin angle * radius] /\
    dist0 (cos angle * radius) (sin angle * radius) = radius /\
    dist0 (cos angle * radius) (sin angle * radius) < 1 /\
    exists label,
      outputs (generateDataset "circle" g).1 !! i = Some [label] /\
      (label = 1 <-> radius < 0.5) /\
      (label = 0 <-> ~ radius < 0.5).
Proof.
  intros Hg.
  split; [| split; [| split; [| split; [apply generateDataset_circle_source |]]]];
    rewrite generateDataset_circle; cbn [inputs outputs dataset_type];
    rewrite ?length_fmap, ?length_seq; try reflexivity.
  intros i Hi.
  set (angle := g (2 * i)%nat * PI * 2). set (radius := g (S (2 * i))).
  assert (Hpi := PI_RGT_0).
  assert (Ha := Hg (2 * i)%nat). assert (Hr := Hg (S (2 * i))).
  fold radius in Hr.
  split.
  { unfold angle. nra. }
  split; [exact Hr |].
  rewrite !list_lookup_fmap, !lookup_seq_lt by exact Hi.
  split; [reflexivity |].
  split; [apply circle_point_norm; lra |].
  split; [rewrite circle_point_norm; lra |].
  exists (if Rlt_dec radius 0.5 then 1 else 0).
  split; [reflexivity |].
  destruct (Rlt_dec radius 0.5); split; split; intros; try lra; tauto.
Qed.

Lemma generateDataset_circle_spec_witness :
  length (inputs (generateDataset "circle" (fun _ => 0.25)).1) = 100%nat /\
  inputs (generateDataset "circle" (fun _ => 0.25)).1 !! 7%nat
  = Some [cos (0.25 * PI * 2) * 0.25; sin (0.25 * PI * 2) * 0.25] /\
  dist0 (cos (0.25 * PI * 2) * 0.25) (sin (0.25 * PI * 2) * 0.25) < 1 /\
  outputs (generateDataset "circle" (fun _ => 0.25)).1 !! 7%nat = Some [1].
Proof.
  destruct (generateDataset_circle_spec (fun _ => 0.25)) as (Hlen & _ & _ & _ & Hnth).
  - intros n. lra.
  - split; [exact Hlen |].
    destruct (Hnth 7%nat) as (_ & _ & Hin & _ & Hd & label & Hout & Hone & _); [lia |].
    split; [exact Hin |]. split; [exact Hd |].
    rewrite Hout. f_equal. f_equal. apply Hone. lra.
Defined.

(** ** Topology *)

Lemma splice1_inside {A : Type} (l : list A) (i : Z) :
  (0 <= i < Z.of_nat (length l))%Z ->
  splice1 i l = take (Z.to_nat i) l ++ drop (S (Z.to_nat i)) l.
Proof.
  intros Hi. unfold splice1.
  destruct (Z.ltb_spec i 0); [lia |].
  rewrite Z.min_l by lia. rewrite Z.min_l by lia.
  replace (Z.to_nat (i + 1)) with (S (Z.to_nat i)) by lia. reflexivity.
Qed.

Lemma splice1_past_end {A : Type} (l : list A) (i : Z) :
  (Z.of_nat (length l) <= i)%Z -> splice1 i l = l.
Proof.
  intros Hi. unfold splice1.
  destruct (Z.ltb_spec i 0); [lia |].
  rewrite Z.min_r by lia. rewrite Z.min_r by lia.
  rewrite Z.sub_diag, Z.add_0_r, Nat2Z.id, firstn_all, drop_all. apply app_nil_r.
Qed.

Lemma handleRemoveLayer_guarded (c : NetworkConfig) (i : Z) :
  (i = 0 \/ i = Z.of_nat (length (layers c)) - 1)%Z -> handleRemoveLayer i c = c.
Proof.
  intros H. unfold handleRemoveLayer.
  destruct H as [-> | ->]; [reflexivity |].
  rewrite Z.eqb_refl, orb_true_r. reflexivity.
Qed.

Lemma handleRemoveLayer_inside (c : NetworkConfig) (i : Z) :
  (0 < i < Z.of_nat (length (layers c)) - 1)%Z ->
  layers (handleRemoveLayer i c)
  = take (Z.to_nat i) (layers c) ++ drop (S (Z.to_nat i)) (layers c).
Proof.
  intros H. unfold handleRemoveLayer.
  destruct (Z.eqb_spec i 0); [lia |].
  destruct (Z.eqb_spec i (Z.of_nat (length (layers c)) - 1)); [lia |].
  cbn [orb layers]. apply splice1_inside. lia.
Qed.

Lemma lookup_without {A : Type} (l : list A) (i j : nat) :
  (i < length l)%nat ->
  (take i l ++ drop (S i) l) !! j = if (j <? i)%nat then l !! j else l !! S j.
Proof.
  intros Hi. destruct (Nat.ltb_spec j i).
  - rewrite lookup_app_l by (rewrite length_take; lia).
    apply lookup_take_lt. lia.
  - rewrite lookup_app_r by (rewrite length_take; lia).
    rewrite length_take, lookup_drop. f_equal. lia.
Qed.

(** C9. [handleRemoveLayer i] with [i] the first or the last index leaves the
    layer list unchanged; with [0 < i < lastIndex] it shortens the list by
    exactly one, deleting the layer at position [i] only: the layers before
    [i] keep their positions and contents, those after [i] move up by one. *)
Theorem handleRemoveLayer_spec (c : NetworkConfig) (i : Z) :
  ((i = 0 \/ i = Z.of_nat (length (layers c)) - 1)%Z -> handleRemoveLayer i c = c) /\
  ((0 < i < Z.of_nat (length (layers c)) - 1)%Z ->
     S (length (layers (handleRemoveLayer i c))) = length (layers c) /\
     layers (handleRemoveLayer i c)
       = take (Z.to_nat i) (layers c) ++ drop (S (Z.to_nat i)) (layers c) /\
     forall j : nat,
       layers (handleRemoveLayer i c) !! j
         = if (j <? Z.to_nat i)%nat then layers c !! j else layers c !! S j).
Proof.
  split; [apply handleRemoveLayer_guarded |].
  intros H. rewrite (handleRemoveLayer_inside c i H).
  split; [| split; [reflexivity |]].
  - rewrite length_app, length_take, length_drop. lia.
  - intros j. apply lookup_without. lia.
Qed.

Lemma handleRemoveLayer_spec_witness :
  handleRemoveLayer 0 defaultNetworkConfig = defaultNetworkConfig /\
  handleRemoveLayer 2 defaultNetworkConfig = defaultNetworkConfig /\
  S (length (layers (handleRemoveLayer 1 defaultNetworkConfig))) = 3%nat.
Proof.
  split; [| split].
  - apply (proj1 (handleRemoveLayer_spec defaultNetworkConfig 0)). left. reflexivity.
  - apply (proj1 (handleRemoveLayer_spec defaultNetworkConfig 2)). right. reflexivity.
  - apply (proj2 (handleRemoveLayer_spec defaultNetworkConfig 1)). simpl. lia.
Defined.

(** The invariant read through [lookup]: slot 0 and slot [length - 1]. *)
Lemma topology_invariant_lookup (c : NetworkConfig) :
  topology_invariant c <->
  layers c !! 0%nat ≫= slot_kind = Some input /\
  layers c !! pred (length (layers c)) ≫= slot_kind = Some output.
Proof. unfold topology_invariant. rewrite head_lookup, last_lookup. reflexivity. Qed.

(** Removal at an index the designer can pass (never negative) keeps the
    input layer first and the output layer last. *)
Lemma handleRemoveLayer_preserves_invariant (c : NetworkConfig) (i : Z) :
  (0 <= i)%Z -> topology_invariant c -> topology_invariant (handleRemoveLayer i c).
Proof.
  intros Hi Hinv.
  destruct (Z.eq_dec i 0%Z) as [-> | Hne0].
  { rewrite handleRemoveLayer_guarded by (left; reflexivity). exact Hinv. }
  destruct (Z.eq_dec i (Z.of_nat (length (layers c)) - 1)%Z) as [-> | Hnel].
  { rewrite handleRemoveLayer_guarded by (right; reflexivity). exact Hinv. }
  destruct (Z_lt_le_dec i (Z.of_nat (length (layers c)))) as [Hlt | Hge].
  - apply topology_invariant_lookup in Hinv as [Hhd Hlst].
    apply topology_invariant_lookup.
    rewrite handleRemoveLayer_inside by lia.
    rewrite length_app, length_take, length_drop, !lookup_without by lia.
    destruct (Nat.ltb_spec 0 (Z.to_nat i)); [| lia].
    split; [exact Hhd |].
    destruct (Nat.ltb_spec (pred (Z.to_nat i `min` length (layers c)
                                  + (length (layers c) - S (Z.to_nat i)))) (Z.to_nat i));
      [lia |].
    replace (S (pred (Z.to_nat i `min` length (layers c)
                      + (length (layers c) - S (Z.to_nat i)))))
      with (pred (length (layers c))) by lia.
    exact Hlst.
  - unfold handleRemoveLayer.
    destruct (Z.eqb_spec i 0); [lia |].
    destruct (Z.eqb_spec i (Z.of_nat (length (layers c)) - 1)); [lia |].
    cbn [orb]. rewrite splice1_past_end by lia. destruct c. exact Hinv.
Qed.

(** An update of an existing layer that carries no [type] property (the
    designer sends [neurons] or [activation] only) keeps the invariant. *)
Lemma handleUpdateLayer_preserves_invariant (c : NetworkConfig) (i : Z) (updates : Layer) :
  (0 <= i < Z.of_nat (length (layers c)))%Z ->
  type updates = None ->
  topology_invariant c -> topology_invariant (handleUpdateLayer i updates c).
Proof.
  intros Hi Hty Hinv.
  apply topology_invariant_lookup in Hinv as [Hhd Hlst].
  apply topology_invariant_lookup.
  unfold handleUpdateLayer, array_set, array_get. cbn [layers].
  destruct (Z.ltb_spec i 0); [lia |].
  destruct (Nat.ltb_spec (Z.to_nat i) (length (layers c))); [| lia].
  rewrite length_insert.
  assert (Hkind : forall j : nat,
             <[Z.to_nat i := Some (spread (mjoin (layers c !! Z.to_nat i)) updates)]>
               (layers c) !! j ≫= slot_kind
             = layers c !! j ≫= slot_kind).
  { intros j. destruct (Nat.eq_dec (Z.to_nat i) j) as [<- | Hne].
    - rewrite list_lookup_insert_eq by lia.
      destruct (layers c !! Z.to_nat i) as [[l |] |]; cbn; rewrite ?Hty; reflexivity.
    - rewrite list_lookup_insert_ne by exact Hne. reflexivity. }
  rewrite !Hkind. split; assumption.
Qed.

(** C3. The default topology starts with the input layer and ends with the
    output layer, but [handleAddLayer] appends the new hidden layer after the
    output layer: the last layer is then a hidden one, the invariant is lost
    after a single addHiddenLayer(), and the output layer, now second to
    last, is offered for removal and removed by [handleRemoveLayer]. *)
Theorem handleAddLayer_breaks_topology_invariant :
  topology_invariant defaultNetworkConfig /\
  last (layers (handleAddLayer defaultNetworkConfig)) ≫= slot_kind = Some hidden /\
  ~ topology_invariant (apply_ops [AddHiddenLayer] defaultNetworkConfig) /\
  removeButtonShown 2 (handleAddLayer defaultNetworkConfig) = true /\
  slot_kind <$> layers (apply_ops [AddHiddenLayer; RemoveLayer 2] defaultNetworkConfig)
    = [Some input; Some hidden; Some hidden].
Proof.
  split; [split; reflexivity |].
  split; [reflexivity |].
  split; [| split; reflexivity].
  intros [_ H]. discriminate H.
Qed.

(** ** Training run *)

(** None of the three handlers cancels a timer: Stop and Reset leave the
    table of live timers as it is, and Start adds a timer to it. *)
Lemma stopTraining_intervals (s : State) : intervals (stopTraining s) = intervals s.
Proof. reflexivity. Qed.

Lemma resetTraining_intervals (s : State) : intervals (resetTraining s) = intervals s.
Proof. reflexivity. Qed.

Lemma startTraining_intervals (s : State) :
  intervals (startTraining s)
  = intervals s
      ++ [{| timer_id := next_interval_id s; timer_epochs := epochs (trainingConfig s) |}].
Proof. reflexivity. Qed.

(** What [resetTraining] does, from every state: it clears the epoch counter,
    both series and the stored predictions, and touches neither the running
    flag nor the timers. *)
Lemma resetTraining_clears (s : State) :
  trainingProgress (resetTraining s) = 0%Z /\
  loss (trainingStats (resetTraining s)) = [] /\
  accuracy (trainingStats (resetTraining s)) = [] /\
  predictions (resetTraining s) = [] /\
  isTraining (resetTraining s) = isTraining s /\
  intervals (resetTraining s) = intervals s.
Proof. repeat split. Qed.

(** C4. Reset does not bring a running run to idle. Three ticks into a run
    started on the initial state, [resetTraining] clears the epoch counter,
    both series and the predictions, but the run is still flagged as
    training and its timer is still live: the next tick advances
    [trainingProgress] from 0 to 1 and records a value again. *)
Theorem resetTraining_keeps_running (g : RandomSource) :
  trainingProgress (ticks 3 1 (startTraining initialState) g).1 = 3%Z /\
  isTraining (ticks 3 1 (startTraining initialState) g).1 = true /\
  trainingProgress (resetTraining (ticks 3 1 (startTraining initialState) g).1) = 0%Z /\
  loss (trainingStats (resetTraining (ticks 3 1 (startTraining initialState) g).1)) = [] /\
  accuracy (trainingStats (resetTraining (ticks 3 1 (startTraining initialState) g).1)) = [] /\
  predictions (resetTraining (ticks 3 1 (startTraining initialState) g).1) = [] /\
  isTraining (resetTraining (ticks 3 1 (startTraining initialState) g).1) = true /\
  intervals (resetTraining (ticks 3 1 (startTraining initialState) g).1)
    = [{| timer_id := 1; timer_epochs := 100 |}] /\
  forall g',
    trainingProgress
      (tick 1 (resetTraining (ticks 3 1 (startTraining initialState) g).1) g').1 = 1%Z /\
    length (loss (trainingStats
      (tick 1 (resetTraining (ticks 3 1 (startTraining initialState) g).1) g').1)) = 1%nat.
Proof. repeat split. Qed.

(** C1. Stop does not cancel the timer. After Start then Stop on the initial
    state the run is shown as stopped, yet the timer created by Start is still
    live and its next tick advances [trainingProgress] from 0 to 1. A second
    Start then registers a second timer beside the first: two tick sources are
    live at once, and one firing of each advances the counter by 2. *)
Theorem stopTraining_leaves_timer_live :
  isTraining (clickStartStop (clickStartStop initialState)) = false /\
  intervals (clickStartStop (clickStartStop initialState))
    = [{| timer_id := 1; timer_epochs := 100 |}] /\
  (forall g,
     trainingProgress (tick 1 (clickStartStop (clickStartStop initialState)) g).1 = 1%Z) /\
  timer_id <$> intervals (clickStartStop (clickStartStop (clickStartStop initialState)))
    = [1%nat; 2%nat] /\
  (forall g,
     trainingProgress
       ((tick 1 (clickStartStop (clickStartStop (clickStartStop initialState))) ≫= tick 2) g).1
     = 2%Z).
Proof. repeat split. Qed.

Lemma find_timer_single (tm : Timer) (s : State) :
  intervals s = [tm] -> find_timer (timer_id tm) s = Some tm.
Proof. intros H. unfold find_timer. rewrite H. cbn. rewrite Nat.eqb_refl. reflexivity. Qed.

Lemma find_timer_none (tid : nat) (s : State) :
  intervals s = [] -> find_timer tid s = None.
Proof. intros H. unfold find_timer. rewrite H. reflexivity. Qed.

Lemma clearInterval_single (tm : Timer) (s : State) :
  intervals s = [tm] -> intervals (clearInterval (timer_id tm) s) = [].
Proof.
  intros H. cbn. rewrite H. rewrite filter_cons.
  destruct (decide (timer_id tm ≠ timer_id tm)) as [Hne | _]; [congruence | reflexivity].
Qed.

(** A run whose only live timer [tm] still has [S n] epochs to go: the timer
    delivers exactly [S n] ticks, the last of which cancels it, and all but
    the last append one value to each series. *)
Lemma run_interval_completes (n : nat) :
  forall (fuel : nat) (tm : Timer) (s : State) (g : RandomSource),
    intervals s = [tm] ->
    (trainingProgress s + Z.of_nat (S n) = timer_epochs tm)%Z ->
    (S n <= fuel)%nat ->
    exists s' g',
      run_interval fuel (timer_id tm) s g = (Some (S n, s'), g') /\
      trainingProgress s' = timer_epochs tm /\
      isTraining s' = false /\
      intervals s' = [] /\
      length (loss (trainingStats s')) = (length (loss (trainingStats s)) + n)%nat /\
      length (accuracy (trainingStats s')) = (length (accuracy (trainingStats s)) + n)%nat.
Proof.
  induction n as [| n IH]; intros fuel tm s g Hlive Hleft Hfuel.
  - destruct fuel as [| fuel]; [lia |].
    cbn [run_interval]. rewrite (find_timer_single tm s Hlive).
    unfold mbind, Rnd_bind, interval_callback.
    destruct (Z.geb_spec (trainingProgress s + 1) (timer_epochs tm)) as [_ | Hlt]; [| lia].
    unfold mret, Rnd_ret.
    destruct fuel; cbn [run_interval];
      rewrite find_timer_none by (apply (clearInterval_single tm s Hlive));
      unfold mret, Rnd_ret; cbn [fmap option_fmap option_map fst snd];
      eexists; eexists; (split; [reflexivity |]); cbn;
      rewrite Hlive, filter_cons;
      (destruct (decide (timer_id tm ≠ timer_id tm)); [congruence |]);
      repeat split; lia.
  - destruct fuel as [| fuel]; [lia |].
    cbn [run_interval]. rewrite (find_timer_single tm s Hlive).
    unfold mbind at 1. unfold Rnd_bind, interval_callback.
    destruct (Z.geb_spec (trainingProgress s + 1) (timer_epochs tm)) as [Hge | _]; [lia |].
    unfold mbind, Rnd_bind, Math_random, mret, Rnd_ret.
    match goal with
    | |- context [run_interval fuel (timer_id tm) ?s1 ?g1] =>
        destruct (IH fuel tm s1 g1) as (s' & g' & Hrun & Hp & Ht & Hi & Hl & Ha);
          [exact Hlive | cbn; lia | lia |]
    end.
    rewrite Hrun. cbn [fmap option_fmap option_map fst snd].
    exists s', g'. split; [reflexivity |].
    split; [exact Hp |]. split; [exact Ht |]. split; [exact Hi |].
    cbn in Hl, Ha. rewrite length_app in Hl, Ha. cbn in Hl, Ha.
    split; lia.
Qed.

(** C2 (as the code has it). A run started with [epochs = E], [E >= 1], while
    no earlier timer is live, and left to run until its timer is cancelled,
    receives exactly [E] ticks, ends with [trainingProgress = E], is no longer
    training, has no live timer, and leaves [E - 1] values in each of the loss
    and accuracy series: the tick that completes the run appends nothing. *)
Theorem startTraining_runs_to_completion (s : State) (g : RandomSource) (fuel : nat) :
  intervals s = [] ->
  (1 <= epochs (trainingConfig s))%Z ->
  (Z.to_nat (epochs (trainingConfig s)) <= fuel)%nat ->
  exists s' g',
    run_interval fuel (next_interval_id s) (startTraining s) g
      = (Some (Z.to_nat (epochs (trainingConfig s)), s'), g') /\
    trainingProgress s' = epochs (trainingConfig s) /\
    isTraining s' = false /\
    intervals s' = [] /\
    Z.of_nat (length (loss (trainingStats s'))) = (epochs (trainingConfig s) - 1)%Z /\
    Z.of_nat (length (accuracy (trainingStats s'))) = (epochs (trainingConfig s) - 1)%Z.
Proof.
  intros Hnone HE Hfuel.
  set (E := epochs (trainingConfig s)) in *.
  set (tm := {| timer_id := next_interval_id s; timer_epochs := E |}).
  destruct (run_interval_completes (Z.to_nat E - 1) fuel tm (startTraining s) g)
    as (s' & g' & Hrun & Hp & Ht & Hi & Hl & Ha).
  - cbn. rewrite Hnone. reflexivity.
  - cbn. lia.
  - lia.
  - exists s', g'. cbn in Hrun, Hp, Hl, Ha.
    replace (S (Z.to_nat E - 1)) with (Z.to_nat E) in Hrun by lia.
    split; [exact Hrun |]. split; [exact Hp |]. split; [exact Ht |].
    split; [exact Hi |]. split; lia.
Qed.

Lemma startTraining_runs_to_completion_witness :
  exists s' g',
    run_interval 10 1 (startTraining (initialStateWithEpochs 10)) (fun _ => 0)
      = (Some (10%nat, s'), g') /\
    trainingProgress s' = 10%Z /\
    isTraining s' = false /\
    intervals s' = [] /\
    Z.of_nat (length (loss (trainingStats s'))) = 9%Z /\
    Z.of_nat (length (accuracy (trainingStats s'))) = 9%Z.
Proof.
  apply (startTraining_runs_to_completion (initialStateWithEpochs 10) (fun _ => 0) 10).
  - reflexivity.
  - simpl. lia.
  - simpl. lia.
Defined.

(** Outside the slider's range: with [epochs <= 0] the first tick already
    completes the run, so the run receives one tick, not [epochs] many. *)
Lemma startTraining_nonpositive_epochs (s : State) (g : RandomSource) (fuel : nat) :
  intervals s = [] ->
  (epochs (trainingConfig s) <= 0)%Z ->
  exists s',
    run_interval (S fuel) (next_interval_id s) (startTraining s) g = (Some (1%nat, s'), g) /\
    trainingProgress s' = epochs (trainingConfig s) /\
    isTraining s' = false.
Proof.
  intros Hnone HE.
  set (tm := {| timer_id := next_interval_id s; timer_epochs := epochs (trainingConfig s) |}).
  assert (Hlive : intervals (startTraining s) = [tm]) by (cbn; rewrite Hnone; reflexivity).
  change (next_interval_id s) with (timer_id tm).
  cbn [run_interval]. rewrite (find_timer_single tm _ Hlive).
  unfold mbind, Rnd_bind, interval_callback.
  destruct (Z.geb_spec (trainingProgress (startTraining s) + 1) (timer_epochs tm)) as [_ | Hlt];
    [| cbn in Hlt; lia].
  unfold mret, Rnd_ret.
  destruct fuel; cbn [run_interval];
    rewrite find_timer_none by (apply (clearInterval_single tm _ Hlive));
    unfold mret, Rnd_ret; cbn [fmap option_fmap option_map fst snd];
    eexists; (split; [reflexivity |]); split; reflexivity.
Qed.

(** C2 as stated fails at [E = 10]: the run receives 10 ticks and completes
    with [trainingProgress = 10], but each series holds 9 values, not 10. *)
Lemma training_series_one_short :
  exists s' g',
    run_interval 10 1 (startTraining (initialStateWithEpochs 10)) (fun _ => 0)
      = (Some (10%nat, s'), g') /\
    trainingProgress s' = 10%Z /\
    length (loss (trainingStats s')) = 9%nat /\
    length (accuracy (trainingStats s')) = 9%nat /\
    length (loss (trainingStats s')) ≠ 10%nat /\
    length (accuracy (trainingStats s')) ≠ 10%nat.
Proof.
  destruct (run_interval_completes 9 10 {| timer_id := 1; timer_epochs := 10 |}
              (startTraining (initialStateWithEpochs 10)) (fun _ => 0))
    as (s' & g' & Hrun & Hp & _ & _ & Hl & Ha); [reflexivity | reflexivity | lia |].
  exists s', g'. cbn in Hrun, Hp, Hl, Ha.
  split; [exact Hrun |]. split; [exact Hp |].
  rewrite Hl, Ha. repeat split; lia.
Qed.

(** ** Predictions *)

Lemma predict_sample_row (d : Dataset) (input row : list R) (index : nat) (g : RandomSource) :
  outputs d !! index = Some row ->
  predict_sample d input index g = (Some (prediction_of input row (g 0%nat)), fun n => g (S n)).
Proof. intros H. unfold predict_sample. rewrite H. reflexivity. Qed.

Lemma predict_sample_throws (d : Dataset) (input : list R) (index : nat) (g : RandomSource) :
  outputs d !! index = None -> predict_sample d input index g = (None, g).
Proof. intros H. unfold predict_sample. rewrite H. reflexivity. Qed.

(** When the map returns, it returns one prediction per input, in order, the
    [j]-th computed from the [j]-th input, its output row and the [j]-th draw. *)
Lemma array_map_predict_returns (d : Dataset) (l : list (list R)) :
  forall (k : nat) (g : RandomSource) (ps : list Prediction),
    (array_map (predict_sample d) k l g).1 = Some ps ->
    length ps = length l /\
    forall (j : nat) (input : list R),
      l !! j = Some input ->
      exists row,
        outputs d !! (k + j)%nat = Some row /\ ps !! j = Some (prediction_of input row (g j)).
Proof.
  induction l as [| a l IH]; intros k g ps Hps.
  - cbn in Hps. injection Hps as <-. split; [reflexivity |]. intros j input Hj. discriminate Hj.
  - cbn [array_map] in Hps. unfold mbind, Rnd_bind in Hps.
    destruct (outputs d !! k) as [row |] eqn:Hrow.
    + rewrite (predict_sample_row d a row k g Hrow) in Hps.
      destruct (array_map (predict_sample d) (S k) l (fun n => g (S n))) as [rest g'] eqn:Hrest.
      destruct rest as [rest |]; [| discriminate Hps].
      cbn in Hps. injection Hps as <-.
      destruct (IH (S k) (fun n => g (S n)) rest) as [Hlen Hnth]; [rewrite Hrest; reflexivity |].
      split; [cbn; lia |].
      intros [| j] input Hj.
      * cbn in Hj. injection Hj as <-. exists row. rewrite Nat.add_0_r. split; [exact Hrow | reflexivity].
      * cbn in Hj. destruct (Hnth j input Hj) as (row' & Hrow' & Hp).
        exists row'. rewrite Nat.add_succ_r. split; [exact Hrow' | exact Hp].
    + rewrite (predict_sample_throws d a k g Hrow) in Hps. discriminate Hps.
Qed.

(** The map returns when every index it visits has an output row. *)
Lemma array_map_predict_total (d : Dataset) (l : list (list R)) :
  forall (k : nat) (g : RandomSource),
    (k + length l <= length (outputs d))%nat ->
    exists ps, (array_map (predict_sample d) k l g).1 = Some ps.
Proof.
  induction l as [| a l IH]; intros k g Hlen.
  - exists []. reflexivity.
  - cbn [length] in Hlen.
    destruct (lookup_lt_is_Some_2 (outputs d) k) as [row Hrow]; [lia |].
    destruct (IH (S k) (fun n => g (S n))) as [rest Hrest]; [lia |].
    exists (prediction_of a row (g 0%nat) :: rest).
    cbn [array_map]. unfold mbind, Rnd_bind.
    rewrite (predict_sample_row d a row k g Hrow).
    destruct (array_map (predict_sample d) (S k) l (fun n => g (S n))) as [r g'].
    cbn in Hrest. rewrite Hrest. reflexivity.
Qed.

Lemma clamp_unit_interval (x : R) : 0 <= Rmin 1 (Rmax 0 x) <= 1.
Proof.
  unfold Rmin, Rmax.
  destruct (Rle_dec 0 x); destruct (Rle_dec 1 _); lra.
Qed.

Lemma clamp_negative (x : R) : x < 0 -> Rmin 1 (Rmax 0 x) = 0.
Proof.
  intros H. unfold Rmin, Rmax.
  destruct (Rle_dec 0 x); destruct (Rle_dec 1 _); lra.
Qed.

Lemma noise_as_uniformRandom (r : R) : r * 0.3 - 0.15 = uniformRandom (-0.15) 0.15 r.
Proof. unfold uniformRandom. lra. Qed.

(** C5. For a dataset read as a sequence of samples, [makePredictions] builds
    exactly one prediction per sample, in sample order; the [i]-th carries the
    [i]-th input, [actual] = first component of the [i]-th output, and
    [predicted = clamp(actual + uniformRandom(-0.15, 0.15), 0, 1)] for the
    [i]-th draw, whatever it is, so [predicted] lies in [0, 1]. The button
    that invokes it is disabled while [trainingProgress = 0]: a click then
    changes nothing, and otherwise stores these predictions. *)
Theorem makePredictions_spec (d : Dataset) (g : RandomSource) :
  samples_ok d ->
  uniform01 g ->
  exists ps,
    (simulatedPredictions d g).1 = Some ps /\
    length ps = length (inputs d) /\
    (forall (i : nat) (input row : list R),
       inputs d !! i = Some input ->
       outputs d !! i = Some row ->
       exists a,
         row !! 0%nat = Some a /\
         ps !! i =
           Some {| pred_input := input;
                   actual := Some a;
                   predicted := Some (clamp (a + uniformRandom (-0.15) 0.15 (g i)) 0 1) |} /\
         -0.15 <= uniformRandom (-0.15) 0.15 (g i) < 0.15 /\
         0 <= clamp (a + uniformRandom (-0.15) 0.15 (g i)) 0 1 <= 1) /\
    (forall s : State,
       dataset s = d ->
       (trainingProgress s = 0%Z ->
          runPredictionsDisabled s = true /\ clickRunPredictions s g = (s, g)) /\
       (trainingProgress s ≠ 0%Z ->
          runPredictionsDisabled s = false /\ predictions (clickRunPredictions s g).1 = ps)).
Proof.
  intros [Hlen Hrows] Hg.
  destruct (array_map_predict_total d (inputs d) 0 g) as [ps Hps]; [cbn; lia |].
  destruct (array_map_predict_returns d (inputs d) 0 g ps Hps) as [Hn Hnth].
  exists ps. split; [exact Hps |]. split; [exact Hn |]. split.
  - intros i input row Hi Hrow.
    destruct (Hnth i input Hi) as (row' & Hrow' & Hp).
    cbn in Hrow'. rewrite Hrow in Hrow'. injection Hrow' as <-.
    assert (Hne : row ≠ []).
    { rewrite Forall_forall in Hrows. apply Hrows. eapply list_elem_of_lookup_2, Hrow. }
    destruct row as [| a row]; [congruence |].
    exists a. split; [reflexivity |].
    split; [| split].
    + rewrite Hp. unfold prediction_of, clamp. cbn.
      rewrite noise_as_uniformRandom. reflexivity.
    + unfold uniformRandom. specialize (Hg i). lra.
    + apply clamp_unit_interval.
  - intros s <-. split.
    + intros H0. unfold clickRunPredictions, runPredictionsDisabled. rewrite H0. split; reflexivity.
    + intros H0. unfold clickRunPredictions, runPredictionsDisabled.
      destruct (Z.eqb_spec (trainingProgress s) 0); [congruence |].
      split; [reflexivity |].
      unfold makePredictions, mbind, Rnd_bind.
      unfold simulatedPredictions in Hps.
      change (simulatedPredictions (dataset s) g)
        with (array_map (predict_sample (dataset s)) 0 (inputs (dataset s)) g).
      destruct (array_map (predict_sample (dataset s)) 0 (inputs (dataset s)) g) as [r g'].
      cbn in Hps. rewrite Hps. reflexivity.
Qed.

Lemma makePredictions_spec_witness :
  exists ps,
    (simulatedPredictions xorDataset (fun _ => 0.5)).1 = Some ps /\
    length ps = 4%nat /\
    ps !! 1%nat =
      Some {| pred_input := [0; 1];
              actual := Some 1;
              predicted := Some (clamp (1 + uniformRandom (-0.15) 0.15 0.5) 0 1) |}.
Proof.
  destruct (makePredictions_spec xorDataset (fun _ => 0.5)) as (ps & Hps & Hlen & Hnth & _).
  - split; [reflexivity |]. repeat constructor; discriminate.
  - intros n. lra.
  - exists ps. split; [exact Hps |]. split; [exact Hlen |].
    destruct (Hnth 1%nat [0; 1] [1]) as (a & Ha & Hp & _); [reflexivity | reflexivity |].
    injection Ha as <-. exact Hp.
Defined.

(** Every dataset [generateDataset] builds is a sequence of samples. *)
Lemma generateDataset_samples_ok (datasetType : string) (g : RandomSource) :
  samples_ok (generateDataset datasetType g).1.
Proof.
  assert (Hxor : samples_ok xorDataset).
  { split; [reflexivity |]. repeat constructor; discriminate. }
  destruct (String.eqb_spec datasetType "xor") as [-> | Hx]; [exact Hxor |].
  destruct (String.eqb_spec datasetType "circle") as [-> | Hc].
  { rewrite generateDataset_circle. split; cbn [inputs outputs].
    - rewrite !length_fmap. reflexivity.
    - apply Forall_fmap, Forall_forall. intros j _. discriminate. }
  destruct (String.eqb_spec datasetType "sine") as [-> | Hs].
  { rewrite generateDataset_sine. split; cbn [fst inputs outputs].
    - rewrite !length_fmap. reflexivity.
    - apply Forall_fmap, Forall_forall. intros j _. discriminate. }
  destruct (generateDataset_xor_fallback g datasetType Hx Hc Hs) as [-> _]. exact Hxor.
Qed.

(** C10. For a dataset read as a sequence of samples, [makePredictions]
    returns, and every sample whose actual output (first component) is at
    most -0.15 gets [predicted = 0] exactly, for every value of the draw:
    the jitter stays below 0.15, so the sum is negative and the clamp returns
    its lower bound. *)
Theorem makePredictions_clamps_low_actuals (d : Dataset) (g : RandomSource) :
  samples_ok d ->
  uniform01 g ->
  exists ps,
    (simulatedPredictions d g).1 = Some ps /\
    forall (i : nat) (input row : list R) (a : R),
      inputs d !! i = Some input ->
      outputs d !! i = Some row ->
      row !! 0%nat = Some a ->
      a <= -0.15 ->
      ps !! i = Some {| pred_input := input; actual := Some a; predicted := Some 0 |}.
Proof.
  intros [Hlen _] Hg.
  destruct (array_map_predict_total d (inputs d) 0 g) as [ps Hps]; [cbn; lia |].
  exists ps. split; [exact Hps |].
  intros i input row a Hi Hrow Ha Hlow.
  destruct (array_map_predict_returns d (inputs d) 0 g ps Hps) as [_ Hnth].
  destruct (Hnth i input Hi) as (row' & Hrow' & Hp).
  cbn in Hrow'. rewrite Hrow in Hrow'. injection Hrow' as <-.
  rewrite Hp. unfold prediction_of. rewrite Ha. cbn.
  rewrite clamp_negative; [reflexivity |].
  specialize (Hg i). lra.
Qed.

Lemma sine_three_quarters : sin (INR 75 / 100 * PI * 2) = -1.
Proof.
  replace (INR 75 / 100 * PI * 2) with (3 * (PI / 2)).
  - apply sin_3PI2.
  - rewrite INR_IZR_INZ. change (Z.of_nat 75) with 75%Z. lra.
Qed.

(** Sample 75 of the sine dataset, [x = 3π/2], has actual output -1. *)
Lemma makePredictions_clamps_low_actuals_witness :
  exists ps,
    (simulatedPredictions (generateDataset "sine" (fun _ => 0)).1 (fun _ => 0)).1 = Some ps /\
    ps !! 75%nat
    = Some {| pred_input := [INR 75 / 100 * PI * 2]; actual := Some (-1); predicted := Some 0 |}.
Proof.
  destruct (makePredictions_clamps_low_actuals
              (generateDataset "sine" (fun _ => 0)).1 (fun _ => 0)) as (ps & Hps & Hlow).
  - apply generateDataset_samples_ok.
  - intros n. lra.
  - exists ps. split; [exact Hps |].
    apply (Hlow 75%nat _ [sin (INR 75 / 100 * PI * 2)]).
    + rewrite generateDataset_sine. reflexivity.
    + rewrite generateDataset_sine. reflexivity.
    + rewrite <- sine_three_quarters. reflexivity.
    + lra.
Defined.

(** * Further properties of the component *)

(** ** Topology handlers and the designer's controls *)

Lemma handleRemoveLayer_preserves_invariant_witness :
  topology_invariant (handleRemoveLayer 1 defaultNetworkConfig).
Proof.
  apply (handleRemoveLayer_preserves_invariant defaultNetworkConfig 1).
  - lia.
  - split; reflexivity.
Defined.

Lemma handleUpdateLayer_preserves_invariant_witness :
  topology_invariant
    (handleUpdateLayer 2 {| type := None; neurons := None; activation := Some tanh |}
       defaultNetworkConfig).
Proof.
  apply (handleUpdateLayer_preserves_invariant defaultNetworkConfig 2).
  - simpl. lia.
  - reflexivity.
  - split; reflexivity.
Defined.

Lemma parsed_or_one_nonzero (parsed : option Z) : parsed_or_one parsed ≠ 0%Z.
Proof.
  unfold parsed_or_one. destruct parsed as [n |]; [| discriminate].
  destruct (Z.eqb_spec n 0); [discriminate | assumption].
Qed.

Lemma array_get_Some_lt {A : Type} (l : list (option A)) (i : nat) (x : A) :
  array_get (Z.of_nat i) l = Some x -> l !! i = Some (Some x) /\ (i < length l)%nat.
Proof.
  unfold array_get. destruct (Z.ltb_spec (Z.of_nat i) 0); [discriminate |].
  rewrite Nat2Z.id. intros Hget.
  destruct (l !! i) as [[y |] |] eqn:Hl; cbn in Hget; try discriminate.
  injection Hget as ->. split; [reflexivity |]. eapply lookup_lt_Some, Hl.
Qed.

Lemma array_set_inside {A : Type} (l : list (option A)) (i : nat) (v : A) :
  (i < length l)%nat -> array_set (Z.of_nat i) v l = <[i := Some v]> l.
Proof.
  intros Hi. unfold array_set. destruct (Z.ltb_spec (Z.of_nat i) 0); [lia |].
  rewrite Nat2Z.id. destruct (Nat.ltb_spec i (length l)); [reflexivity | lia].
Qed.

(** An update through the designer rewrites one inner layer in place. *)
Lemma designer_update_inner (rest : list (option Layer)) (i : nat) (layer updates : Layer) :
  Forall inner_layer rest ->
  array_get (Z.of_nat i) (Some inputLayer :: rest) = Some layer ->
  is_input layer = false ->
  type updates = None ->
  (forall n, neurons updates = Some n -> n ≠ 0%Z) ->
  exists rest',
    layers (handleUpdateLayer (Z.of_nat i) updates {| layers := Some inputLayer :: rest |})
    = Some inputLayer :: rest' /\
    length rest' = length rest /\ Forall inner_layer rest'.
Proof.
  intros Hrest Hget Hin Hty Hn.
  destruct (array_get_Some_lt _ _ _ Hget) as [Hl Hlt].
  unfold handleUpdateLayer. cbn [layers]. rewrite Hget, array_set_inside by exact Hlt.
  destruct i as [| i].
  { cbn in Hl. injection Hl as <-. discriminate Hin. }
  cbn in Hl. cbn [insert list_insert].
  eexists. split; [reflexivity |]. split; [apply length_insert |].
  apply Forall_insert; [exact Hrest |].
  rewrite Forall_lookup in Hrest. destruct (Hrest i _ Hl) as (t & n & a & Heq & Ht & Hn0).
  injection Heq as ->. cbn. rewrite Hty. cbn.
  destruct (neurons updates) as [n' |] eqn:Hn', (activation updates) as [a' |];
    cbn; eexists _, _, _; (split; [reflexivity |]); split; try exact Ht; try exact Hn0;
    apply Hn; reflexivity.
Qed.

Lemma reachable_layers (c : NetworkConfig) :
  designer_reachable c ->
  exists rest,
    layers c = Some inputLayer :: rest /\ rest ≠ [] /\ Forall inner_layer rest.
Proof.
  induction 1 as [| c ev _ (rest & Hc & Hne & Hrest) Hen].
  - eexists. split; [reflexivity |]. split; [discriminate |].
    repeat constructor; eexists _, _, _; (split; [reflexivity |]); split; discriminate.
  - destruct c as [ls]. cbn [layers] in Hc. subst ls.
    destruct ev as [| i | i parsed | i value]; cbn [handle_event event_enabled layers] in *.
    + exists (rest ++ [Some {| type := Some hidden; neurons := Some 4%Z; activation := Some relu |}]).
      split; [reflexivity |]. split; [intros Heq; apply app_eq_nil in Heq as [_ Heq]; discriminate |].
      apply Forall_app. split; [exact Hrest |].
      repeat constructor. eexists _, _, _. split; [reflexivity |]. split; discriminate.
    + destruct (array_get (Z.of_nat i) (Some inputLayer :: rest)) as [layer |] eqn:Hget;
        [| discriminate].
      destruct (array_get_Some_lt _ _ _ Hget) as [_ Hlt]. cbn [length] in Hlt.
      unfold removeButtonShown in Hen. cbn [layers length] in Hen.
      apply andb_true_iff in Hen as [H0 Hl]. apply negb_true_iff in H0, Hl.
      apply Z.eqb_neq in H0, Hl.
      rewrite handleRemoveLayer_inside by (cbn [layers length]; lia).
      rewrite Nat2Z.id. destruct i as [| i]; [lia |].
      cbn [layers take drop].
      exists (take i rest ++ drop (S i) rest). split; [reflexivity |]. split.
      * intros Heq. apply (f_equal length) in Heq.
        rewrite length_app, length_take, length_drop in Heq. cbn in Heq. lia.
      * apply Forall_app. split; [apply Forall_take | apply Forall_drop]; exact Hrest.
    + destruct (array_get (Z.of_nat i) (Some inputLayer :: rest)) as [layer |] eqn:Hget;
        [| discriminate].
      apply negb_true_iff, orb_false_iff in Hen as [Hin _].
      destruct (designer_update_inner rest i layer
                  {| type := None; neurons := Some (parsed_or_one parsed); activation := None |}
                  Hrest Hget Hin eq_refl) as (rest' & Heq & Hlen & Hall).
      { intros n [= <-]. apply parsed_or_one_nonzero. }
      exists rest'. split; [exact Heq |]. split; [| exact Hall].
      intros ->. destruct rest; [congruence | discriminate Hlen].
    + destruct (array_get (Z.of_nat i) (Some inputLayer :: rest)) as [layer |] eqn:Hget;
        [| discriminate].
      apply negb_true_iff in Hen.
      destruct (designer_update_inner rest i layer
                  {| type := None; neurons := None; activation := Some value |}
                  Hrest Hget Hen eq_refl) as (rest' & Heq & Hlen & Hall).
      { intros n [=]. }
      exists rest'. split; [exact Heq |]. split; [| exact Hall].
      intros ->. destruct rest; [congruence | discriminate Hlen].
Qed.

(** Every topology the designer can reach keeps the default input layer,
    untouched, in first position, followed by at least one more layer; every
    later layer is a hidden or output layer with a non-zero neuron count and
    an activation. *)
Theorem designer_reachable_shape (c : NetworkConfig) :
  designer_reachable c ->
  exists rest,
    layers c = Some inputLayer :: rest /\ rest ≠ [] /\ Forall inner_layer rest.
Proof. exact (reachable_layers c). Qed.

Lemma designer_reachable_shape_witness :
  exists rest,
    layers (handle_event (handle_event defaultNetworkConfig ClickAddLayer) (ClickRemoveLayer 2))
    = Some inputLayer :: rest /\ rest ≠ [] /\ Forall inner_layer rest.
Proof.
  apply designer_reachable_shape.
  apply reachable_event; [| reflexivity].
  apply reachable_event; [| reflexivity].
  apply reachable_default.
Defined.

(** An index outside the array. At or past the end nothing is removed. A
    negative index passes the guard (it is neither 0 nor [length - 1]) and
    [splice] counts it from the end, so it deletes a layer the guard was meant
    to keep: [-1] deletes the last layer, [-length] or below the first. *)
Theorem handleRemoveLayer_out_of_range (c : NetworkConfig) (i : Z) :
  ((Z.of_nat (length (layers c)) <= i)%Z -> handleRemoveLayer i c = c) /\
  ((i < 0)%Z -> layers c ≠ [] ->
     layers (handleRemoveLayer i c)
     = take (Z.to_nat (Z.max (Z.of_nat (length (layers c)) + i) 0)) (layers c)
         ++ drop (S (Z.to_nat (Z.max (Z.of_nat (length (layers c)) + i) 0))) (layers c)).
Proof.
  split.
  - intros Hge. unfold handleRemoveLayer.
    destruct ((i =? 0)%Z || (i =? Z.of_nat (length (layers c)) - 1)%Z); [reflexivity |].
    rewrite splice1_past_end by exact Hge. destruct c. reflexivity.
  - intros Hneg Hne. unfold handleRemoveLayer.
    assert (Hlen : (0 < Z.of_nat (length (layers c)))%Z).
    { destruct (layers c); [congruence | cbn; lia]. }
    destruct (Z.eqb_spec i 0); [lia |].
    destruct (Z.eqb_spec i (Z.of_nat (length (layers c)) - 1)); [lia |].
    cbn [orb layers]. unfold splice1.
    destruct (Z.ltb_spec i 0); [| lia].
    rewrite (Z.min_l 1) by lia. f_equal. f_equal. lia.
Qed.

Lemma handleRemoveLayer_out_of_range_witness :
  handleRemoveLayer 3 defaultNetworkConfig = defaultNetworkConfig /\
  slot_kind <$> layers (handleRemoveLayer (-1) defaultNetworkConfig) = [Some input; Some hidden].
Proof.
  split.
  - apply (proj1 (handleRemoveLayer_out_of_range defaultNetworkConfig 3)). simpl. lia.
  - rewrite (proj2 (handleRemoveLayer_out_of_range defaultNetworkConfig (-1)));
      [reflexivity | lia | discriminate].
Defined.

(** ** The run, tick by tick *)

Lemma tick_dead (tid : nat) (s : State) (g : RandomSource) :
  intervals s = [] -> tick tid s g = (s, g).
Proof. intros H. unfold tick. rewrite find_timer_none by exact H. reflexivity. Qed.

Lemma ticks_dead (k : nat) (tid : nat) (s : State) (g : RandomSource) :
  intervals s = [] -> ticks k tid s g = (s, g).
Proof.
  intros H. induction k as [| k IH]; [reflexivity |].
  cbn [ticks]. unfold mbind, Rnd_bind. rewrite tick_dead by exact H. exact IH.
Qed.

Lemma progress_fraction (p E : Z) : (1 <= p < E)%Z -> 0 < IZR p / IZR E < 1.
Proof.
  intros [Hp HE].
  assert (H1 : 0 < IZR p) by (apply IZR_lt; lia).
  assert (H2 : IZR p < IZR E) by (apply IZR_lt; lia).
  assert (H3 : 0 < / IZR E) by (apply Rinv_0_lt_compat; lra).
  unfold Rdiv. split.
  - apply Rmult_lt_0_compat; lra.
  - replace 1 with (IZR E * / IZR E) by (apply Rinv_r; lra).
    apply Rmult_lt_compat_r; lra.
Qed.

Lemma loss_value_range (p E : Z) (r : R) :
  (1 <= p < E)%Z -> 0 <= r < 1 -> loss_range (Rmax 0.1 (1 - IZR p / IZR E + r * 0.1)).
Proof.
  intros Hp Hr. assert (Hx := progress_fraction p E Hp).
  unfold loss_range, Rmax. destruct (Rle_dec _ _); lra.
Qed.

Lemma accuracy_value_range (p E : Z) (r : R) :
  (1 <= p < E)%Z -> 0 <= r < 1 -> accuracy_range (Rmin 0.98 (IZR p / IZR E + r * 0.1)).
Proof.
  intros Hp Hr. assert (Hx := progress_fraction p E Hp).
  unfold accuracy_range, Rmin. destruct (Rle_dec _ _); lra.
Qed.

(** The state [k] ticks into a run whose only live timer is [tm]. *)
Lemma ticks_from (k : nat) :
  forall (tm : Timer) (s : State) (g : RandomSource),
    intervals s = [tm] ->
    (0 <= trainingProgress s < timer_epochs tm)%Z ->
    trainingProgress (ticks k (timer_id tm) s g).1
      = Z.min (trainingProgress s + Z.of_nat k) (timer_epochs tm) /\
    isTraining (ticks k (timer_id tm) s g).1
      = (if (trainingProgress s + Z.of_nat k <? timer_epochs tm)%Z then isTraining s else false) /\
    intervals (ticks k (timer_id tm) s g).1
      = (if (trainingProgress s + Z.of_nat k <? timer_epochs tm)%Z then [tm] else []) /\
    Z.of_nat (length (loss (trainingStats (ticks k (timer_id tm) s g).1)))
      = (Z.of_nat (length (loss (trainingStats s)))
         + Z.min (Z.of_nat k) (timer_epochs tm - 1 - trainingProgress s))%Z /\
    Z.of_nat (length (accuracy (trainingStats (ticks k (timer_id tm) s g).1)))
      = (Z.of_nat (length (accuracy (trainingStats s)))
         + Z.min (Z.of_nat k) (timer_epochs tm - 1 - trainingProgress s))%Z /\
    (uniform01 g ->
     Forall loss_range (loss (trainingStats s)) ->
     Forall accuracy_range (accuracy (trainingStats s)) ->
     Forall loss_range (loss (trainingStats (ticks k (timer_id tm) s g).1)) /\
     Forall accuracy_range (accuracy (trainingStats (ticks k (timer_id tm) s g).1))).
Proof.
  induction k as [| k IH]; intros tm s g Hlive Hp.
  - cbn [ticks mret Rnd_ret fst]. rewrite Z.add_0_r.
    destruct (Z.ltb_spec (trainingProgress s) (timer_epochs tm)); [| lia].
    rewrite Z.min_l by lia.
    repeat split; try reflexivity; try (rewrite Z.min_l by lia; lia); tauto.
  - cbn [ticks]. unfold mbind, Rnd_bind, tick.
    rewrite (find_timer_single tm s Hlive). unfold interval_callback.
    destruct (Z.geb_spec (trainingProgress s + 1) (timer_epochs tm)) as [Hge | Hlt].
    + unfold mret, Rnd_ret.
      rewrite ticks_dead by (apply (clearInterval_single tm s Hlive)).
      cbn [fst trainingProgress isTraining intervals trainingStats setTrainingProgress
           setIsTraining clearInterval].
      destruct (Z.ltb_spec (trainingProgress s + Z.of_nat (S k)) (timer_epochs tm)); [lia |].
      rewrite Hlive, filter_cons.
      destruct (decide (timer_id tm ≠ timer_id tm)); [congruence |].
      rewrite Z.min_r by lia. rewrite (Z.min_r (Z.of_nat (S k))) by lia.
      repeat split; try reflexivity; try lia; tauto.
    + unfold mbind, Rnd_bind, Math_random, mret, Rnd_ret.
      match goal with
      | |- context [ticks k (timer_id tm) ?s1 ?g1] =>
          destruct (IH tm s1 g1) as (Hq & Ht & Hi & Hl & Ha & Hb); [exact Hlive | cbn; lia |];
          rewrite Hq, Ht, Hi, Hl, Ha; clear Hq Ht Hi Hl Ha
      end.
      cbn [trainingProgress isTraining trainingStats loss accuracy setTrainingProgress
           setTrainingStats].
      replace (trainingProgress s + 1 + Z.of_nat k)%Z
        with (trainingProgress s + Z.of_nat (S k))%Z by lia.
      rewrite !length_app. cbn [length].
      split; [reflexivity |]. split; [reflexivity |]. split; [reflexivity |].
      split; [lia |]. split; [lia |].
      intros Hg Hls Has. apply Hb.
      * intros n. apply Hg.
      * cbn. apply Forall_app. split; [exact Hls |].
        apply Forall_singleton, loss_value_range; [lia | apply Hg].
      * cbn. apply Forall_app. split; [exact Has |].
        apply Forall_singleton, accuracy_value_range; [lia | apply Hg].
Qed.

(** The run after [k] ticks, for every [k]: the epoch counter is [min k E],
    each series holds [min k (E - 1)] values, and the run is shown as training
    and its timer is live exactly while [k < E]; ticks past the end change
    nothing. *)
Theorem training_run_after_ticks (s : State) (g : RandomSource) (k : nat) :
  intervals s = [] ->
  (1 <= epochs (trainingConfig s))%Z ->
  trainingProgress (ticks k (next_interval_id s) (startTraining s) g).1
    = Z.min (Z.of_nat k) (epochs (trainingConfig s)) /\
  isTraining (ticks k (next_interval_id s) (startTraining s) g).1
    = (Z.of_nat k <? epochs (trainingConfig s))%Z /\
  (intervals (ticks k (next_interval_id s) (startTraining s) g).1 = []
     <-> (epochs (trainingConfig s) <= Z.of_nat k)%Z) /\
  Z.of_nat (length (loss (trainingStats (ticks k (next_interval_id s) (startTraining s) g).1)))
    = Z.min (Z.of_nat k) (epochs (trainingConfig s) - 1) /\
  Z.of_nat (length (accuracy (trainingStats (ticks k (next_interval_id s) (startTraining s) g).1)))
    = Z.min (Z.of_nat k) (epochs (trainingConfig s) - 1).
Proof.
  intros Hnone HE.
  set (tm := {| timer_id := next_interval_id s; timer_epochs := epochs (trainingConfig s) |}).
  destruct (ticks_from k tm (startTraining s) g) as (Hq & Ht & Hi & Hl & Ha & _).
  - cbn. rewrite Hnone. reflexivity.
  - cbn. lia.
  - cbn in Hq, Ht, Hi, Hl, Ha.
    rewrite Z.add_0_l in Hq, Ht, Hi. rewrite Z.sub_0_r in Hl, Ha.
    split; [exact Hq |]. split.
    { rewrite Ht. destruct (Z.ltb_spec (Z.of_nat k) (epochs (trainingConfig s))); reflexivity. }
    split.
    { rewrite Hi. destruct (Z.ltb_spec (Z.of_nat k) (epochs (trainingConfig s)));
        split; intros; try lia; try reflexivity; discriminate. }
    split; [rewrite Hl | rewrite Ha]; f_equal; lia.
Qed.

Lemma training_run_after_ticks_witness :
  trainingProgress (ticks 7 1 (startTraining initialState) (fun _ => 0)).1 = 7%Z /\
  isTraining (ticks 7 1 (startTraining initialState) (fun _ => 0)).1 = true /\
  trainingProgress (ticks 250 1 (startTraining initialState) (fun _ => 0)).1 = 100%Z /\
  isTraining (ticks 250 1 (startTraining initialState) (fun _ => 0)).1 = false.
Proof.
  destruct (training_run_after_ticks initialState (fun _ => 0) 7) as (Hp & Ht & _);
    [reflexivity | simpl; lia |].
  destruct (training_run_after_ticks initialState (fun _ => 0) 250) as (Hp' & Ht' & _);
    [reflexivity | simpl; lia |].
  split; [exact Hp |]. split; [exact Ht |]. split; [exact Hp' | exact Ht'].
Defined.

(** Every value a run records is in range, whatever the draws: a loss lies in
    [0.1, 1.1) (so it can exceed 1) and an accuracy in (0, 0.98]. *)
Theorem training_stats_in_range (s : State) (g : RandomSource) (k : nat) :
  intervals s = [] ->
  (1 <= epochs (trainingConfig s))%Z ->
  uniform01 g ->
  Forall loss_range
    (loss (trainingStats (ticks k (next_interval_id s) (startTraining s) g).1)) /\
  Forall accuracy_range
    (accuracy (trainingStats (ticks k (next_interval_id s) (startTraining s) g).1)).
Proof.
  intros Hnone HE Hg.
  set (tm := {| timer_id := next_interval_id s; timer_epochs := epochs (trainingConfig s) |}).
  destruct (ticks_from k tm (startTraining s) g) as (_ & _ & _ & _ & _ & Hb).
  - cbn. rewrite Hnone. reflexivity.
  - cbn. lia.
  - apply Hb; [exact Hg | constructor | constructor].
Qed.

Lemma training_stats_in_range_witness :
  Forall loss_range (loss (trainingStats (ticks 40 1 (startTraining initialState) (fun _ => 0.5)).1)).
Proof.
  apply (training_stats_in_range initialState (fun _ => 0.5) 40).
  - reflexivity.
  - simpl. lia.
  - intros n. lra.
Defined.

(** ** Predictions as the visualizer reads them *)

(** Outputs shorter than inputs: [dataset.outputs[index]] is [undefined] at
    the first missing index, the access throws, and [makePredictions] stores
    nothing: the state, earlier predictions included, is as before. *)
Theorem makePredictions_throws_on_missing_output (s : State) (g : RandomSource) :
  (length (outputs (dataset s)) < length (inputs (dataset s)))%nat ->
  (simulatedPredictions (dataset s) g).1 = None /\ (makePredictions s g).1 = s.
Proof.
  intros Hlen.
  assert (Hnone : (simulatedPredictions (dataset s) g).1 = None).
  { destruct (simulatedPredictions (dataset s) g).1 as [ps |] eqn:Hps; [| reflexivity].
    destruct (array_map_predict_returns _ _ 0 g ps Hps) as [_ Hnth].
    destruct (lookup_lt_is_Some_2 (inputs (dataset s)) (length (outputs (dataset s))) Hlen)
      as [input Hin].
    destruct (Hnth _ input Hin) as (row & Hrow & _).
    cbn in Hrow. apply lookup_lt_Some in Hrow. lia. }
  split; [exact Hnone |].
  unfold makePredictions, mbind, Rnd_bind.
  destruct (simulatedPredictions (dataset s) g) as [r g']. cbn in Hnone. subst r. reflexivity.
Qed.

Lemma makePredictions_throws_on_missing_output_witness :
  (makePredictions
     (setDataset {| inputs := [[0]; [1]]; outputs := [[0]]; dataset_type := regression |}
        initialState) (fun _ => 0)).1
  = setDataset {| inputs := [[0]; [1]]; outputs := [[0]]; dataset_type := regression |}
      initialState.
Proof.
  apply (makePredictions_throws_on_missing_output
           (setDataset {| inputs := [[0]; [1]]; outputs := [[0]]; dataset_type := regression |}
              initialState) (fun _ => 0)).
  simpl. lia.
Defined.

(** What the map returns, prediction by prediction, when every label
    satisfies [P]. *)
Lemma predictions_from_labels (P : R -> Prop) (d : Dataset) (g : RandomSource)
    (ps : list Prediction) :
  labels_satisfy P d ->
  uniform01 g ->
  (simulatedPredictions d g).1 = Some ps ->
  Forall (fun p => exists a r,
            P a /\ 0 <= r < 1 /\ actual p = Some a /\
            predicted p = Some (Rmin 1 (Rmax 0 (a + (r * 0.3 - 0.15))))) ps.
Proof.
  intros Hlab Hg Hps.
  destruct (array_map_predict_returns d (inputs d) 0 g ps Hps) as [Hlen Hnth].
  apply Forall_lookup. intros j p Hp.
  destruct (lookup_lt_is_Some_2 (inputs d) j) as [input Hin].
  { rewrite <- Hlen. eapply lookup_lt_Some, Hp. }
  destruct (Hnth j input Hin) as (row & Hrow & Hp').
  rewrite Hp in Hp'. injection Hp' as ->.
  unfold labels_satisfy in Hlab. rewrite Forall_lookup in Hlab.
  destruct (Hlab _ _ Hrow) as (a & Ha & HP).
  exists a, (g j). unfold prediction_of. rewrite Ha. cbn.
  split; [exact HP |]. split; [apply Hg |]. split; reflexivity.
Qed.

Lemma filter_all {A : Type} (f : A -> bool) (l : list A) :
  Forall (fun x => f x = true) l -> List.filter f l = l.
Proof.
  induction 1 as [| x l Hx _ IH]; [reflexivity |].
  cbn. rewrite Hx, IH. reflexivity.
Qed.

Lemma binary_prediction_correct (a r : R) :
  binary_label a -> 0 <= r < 1 ->
  isCorrect {| pred_input := []; actual := Some a;
               predicted := Some (Rmin 1 (Rmax 0 (a + (r * 0.3 - 0.15)))) |} = true.
Proof.
  intros Ha Hr. unfold isCorrect, js_gt, js_le. cbn [predicted actual].
  assert (Hv : (a = 1 /\ 0.5 < Rmin 1 (Rmax 0 (a + (r * 0.3 - 0.15)))) \/
               (a = 0 /\ Rmin 1 (Rmax 0 (a + (r * 0.3 - 0.15))) <= 0.5)).
  { unfold Rmin, Rmax.
    destruct Ha as [-> | ->]; [right | left]; (split; [reflexivity |]);
      destruct (Rle_dec 0 _); destruct (Rle_dec 1 _); lra. }
  destruct Hv as [[-> Hv] | [-> Hv]].
  - destruct (Rlt_dec 0.5 _) as [_ | Hn]; [| contradiction].
    destruct (Rlt_dec 0.5 1) as [_ | Hn]; [reflexivity | exfalso; lra].
  - destruct (Rlt_dec 0.5 _) as [Hlt | _]; [exfalso; lra |].
    destruct (Rlt_dec 0.5 0) as [Hlt | _]; [exfalso; lra |].
    destruct (Rle_dec _ 0.5) as [_ | Hn]; [| contradiction].
    destruct (Rle_dec 0 0.5) as [_ | Hn]; [reflexivity | exfalso; lra].
Qed.

Lemma isCorrect_input_irrelevant (p : Prediction) :
  isCorrect p = isCorrect {| pred_input := []; actual := actual p; predicted := predicted p |}.
Proof. reflexivity. Qed.

(** On a dataset with labels 0 and 1 the jitter never carries a prediction
    across 0.5, so every prediction counts as correct and the Prediction
    Accuracy panel reads 100, whatever the draws. *)
Theorem prediction_accuracy_always_100 (d : Dataset) (g : RandomSource) :
  samples_ok d ->
  inputs d ≠ [] ->
  labels_satisfy binary_label d ->
  uniform01 g ->
  exists ps panels,
    (simulatedPredictions d g).1 = Some ps /\
    List.filter isCorrect ps = ps /\
    predictionPanels ps = Some panels /\
    accuracyPercent panels = 100.
Proof.
  intros [Hlen _] Hne Hlab Hg.
  destruct (array_map_predict_total d (inputs d) 0 g) as [ps Hps]; [cbn; lia |].
  assert (Hall : List.filter isCorrect ps = ps).
  { apply filter_all.
    eapply Forall_impl; [apply (predictions_from_labels binary_label d g ps Hlab Hg Hps) |].
    intros p (a & r & Ha & Hr & Hact & Hpred). cbn beta.
    rewrite isCorrect_input_irrelevant, Hact, Hpred.
    apply binary_prediction_correct; assumption. }
  destruct (array_map_predict_returns d (inputs d) 0 g ps Hps) as [Hn _].
  destruct ps as [| p ps].
  { destruct (inputs d); [congruence | discriminate Hn]. }
  eexists _, _. split; [exact Hps |]. split; [exact Hall |].
  split; [reflexivity |].
  cbn [accuracyPercent]. rewrite Hall.
  assert (Hpos : 0 < INR (length (p :: ps))) by (apply lt_0_INR; cbn; lia).
  unfold Rdiv. rewrite Rinv_r by lra. lra.
Qed.

Lemma xorDataset_binary : labels_satisfy binary_label xorDataset.
Proof.
  repeat constructor; eexists; (split; [reflexivity |]); unfold binary_label; lra.
Qed.

Lemma prediction_accuracy_always_100_witness :
  exists ps panels,
    (simulatedPredictions xorDataset (fun _ => 0.9)).1 = Some ps /\
    predictionPanels ps = Some panels /\
    accuracyPercent panels = 100.
Proof.
  destruct (prediction_accuracy_always_100 xorDataset (fun _ => 0.9))
    as (ps & panels & Hps & _ & Hpan & Hacc).
  - split; [reflexivity |]. repeat constructor; discriminate.
  - discriminate.
  - exact xorDataset_binary.
  - intros n. lra.
  - exists ps, panels. split; [exact Hps |]. split; [exact Hpan | exact Hacc].
Defined.

Lemma unit_prediction_error (a r : R) :
  unit_label a -> 0 <= r < 1 ->
  0 <= Rabs (Rmin 1 (Rmax 0 (a + (r * 0.3 - 0.15))) - a) <= 0.15.
Proof.
  intros Ha Hr. unfold unit_label in Ha. split; [apply Rabs_pos |].
  unfold Rmin, Rmax, Rabs.
  destruct (Rle_dec 0 _); destruct (Rle_dec 1 _); destruct (Rcase_abs _); lra.
Qed.

Lemma sum_abs_error_bounded (ps : list Prediction) :
  Forall (fun p => exists e, abs_error p = Some e /\ 0 <= e <= 0.15) ps ->
  forall s0 : R,
    exists sum,
      fold_left
        (fun sum p =>
           match sum, abs_error p with Some s, Some e => Some (s + e) | _, _ => None end)
        ps (Some s0) = Some sum /\
      s0 <= sum <= s0 + 0.15 * INR (length ps).
Proof.
  induction 1 as [| p ps (e & He & Hb) _ IH]; intros s0.
  - exists s0. split; [reflexivity |]. cbn. lra.
  - cbn [fold_left]. rewrite He.
    destruct (IH (s0 + e)) as (sum & Hsum & Hle).
    exists sum. split; [exact Hsum |].
    change (length (p :: ps)) with (S (length ps)). rewrite S_INR. lra.
Qed.

(** On a dataset whose labels lie in [0, 1] the clamp never moves a
    prediction away from its label, so the Mean Error panel shows a number
    between 0 and 0.15, whatever the draws. *)
Theorem mean_error_at_most_jitter (d : Dataset) (g : RandomSource) :
  samples_ok d ->
  inputs d ≠ [] ->
  labels_satisfy unit_label d ->
  uniform01 g ->
  exists ps panels m,
    (simulatedPredictions d g).1 = Some ps /\
    predictionPanels ps = Some panels /\
    meanError panels = Some m /\
    0 <= m <= 0.15.
Proof.
  intros [Hlen _] Hne Hlab Hg.
  destruct (array_map_predict_total d (inputs d) 0 g) as [ps Hps]; [cbn; lia |].
  assert (Herr : Forall (fun p => exists e, abs_error p = Some e /\ 0 <= e <= 0.15) ps).
  { eapply Forall_impl; [apply (predictions_from_labels unit_label d g ps Hlab Hg Hps) |].
    intros p (a & r & Ha & Hr & Hact & Hpred). cbn beta.
    unfold abs_error. rewrite Hact, Hpred. eexists. split; [reflexivity |].
    apply unit_prediction_error; assumption. }
  destruct (sum_abs_error_bounded ps Herr 0) as (sum & Hsum & Hb).
  destruct (array_map_predict_returns d (inputs d) 0 g ps Hps) as [Hn _].
  destruct ps as [| p ps].
  { destruct (inputs d); [congruence | discriminate Hn]. }
  eexists _, _, _. split; [exact Hps |]. split; [reflexivity |].
  cbn [meanError]. unfold sum_abs_error. rewrite Hsum. cbn [fmap option_fmap option_map].
  split; [reflexivity |].
  assert (Hpos : 0 < INR (length (p :: ps))) by (apply lt_0_INR; cbn; lia).
  assert (Hinv : 0 < / INR (length (p :: ps))) by (apply Rinv_0_lt_compat; exact Hpos).
  unfold Rdiv. split.
  - apply Rmult_le_pos; lra.
  - apply (Rmult_le_reg_r (INR (length (p :: ps)))); [exact Hpos |].
    rewrite Rmult_assoc, Rinv_l by lra. lra.
Qed.

Lemma xorDataset_unit : labels_satisfy unit_label xorDataset.
Proof.
  repeat constructor; eexists; (split; [reflexivity |]); unfold unit_label; lra.
Qed.

Lemma mean_error_at_most_jitter_witness :
  exists ps panels m,
    (simulatedPredictions xorDataset (fun _ => 0.9)).1 = Some ps /\
    predictionPanels ps = Some panels /\
    meanError panels = Some m /\
    0 <= m <= 0.15.
Proof.
  apply (mean_error_at_most_jitter xorDataset (fun _ => 0.9)).
  - split; [reflexivity |]. repeat constructor; discriminate.
  - discriminate.
  - exact xorDataset_unit.
  - intros n. lra.
Defined.

(** ** What the generator hands to the visualizers *)

Lemma circle_label_binary (g : RandomSource) (j : nat) :
  exists a, circle_output g j !! 0%nat = Some a /\ binary_label a.
Proof.
  unfold circle_output. eexists. split; [reflexivity |].
  unfold binary_label. destruct (Rlt_dec _ _); lra.
Qed.

(** Every identifier but "sine" yields a classification dataset of points in
    the plane with labels 0 or 1, which is what the 2-D branch of the
    visualizers expects; "sine" yields a regression dataset of one-coordinate
    inputs with outputs in [-1, 1]. *)
Theorem generateDataset_shapes (datasetType : string) (g : RandomSource) :
  (datasetType ≠ "sine"%string ->
     dataset_type (generateDataset datasetType g).1 = classification /\
     Forall (fun input => length input = 2%nat) (inputs (generateDataset datasetType g).1) /\
     labels_satisfy binary_label (generateDataset datasetType g).1) /\
  (datasetType = "sine"%string ->
     dataset_type (generateDataset datasetType g).1 = regression /\
     Forall (fun input => length input = 1%nat) (inputs (generateDataset datasetType g).1) /\
     labels_satisfy sine_value (generateDataset datasetType g).1).
Proof.
  assert (Hxor : dataset_type xorDataset = classification /\
                 Forall (fun input => length input = 2%nat) (inputs xorDataset) /\
                 labels_satisfy binary_label xorDataset).
  { split; [reflexivity |]. split; [repeat constructor | exact xorDataset_binary]. }
  split.
  - intros Hs.
    destruct (String.eqb_spec datasetType "xor") as [-> | Hx]; [exact Hxor |].
    destruct (String.eqb_spec datasetType "circle") as [-> | Hc].
    + rewrite generateDataset_circle. cbn [dataset_type inputs outputs].
      split; [reflexivity |]. split.
      * apply Forall_fmap, Forall_forall. intros j _. reflexivity.
      * unfold labels_satisfy. cbn [outputs].
        apply Forall_fmap, Forall_forall. intros j _. apply circle_label_binary.
    + destruct (generateDataset_xor_fallback g datasetType Hx Hc Hs) as [-> _]. exact Hxor.
  - intros ->. rewrite generateDataset_sine. cbn [fst dataset_type inputs outputs].
    split; [reflexivity |]. split.
    + apply Forall_fmap, Forall_forall. intros j _. reflexivity.
    + unfold labels_satisfy. cbn [outputs].
      apply Forall_fmap, Forall_forall. intros j _. cbn.
      eexists. split; [reflexivity |]. unfold sine_value.
      destruct (SIN_bound (INR j / 100 * PI * 2)). lra.
Qed.

Lemma generateDataset_shapes_witness :
  labels_satisfy binary_label (generateDataset "circle" (fun _ => 0.25)).1 /\
  labels_satisfy sine_value (generateDataset "sine" (fun _ => 0.25)).1.
Proof.
  split.
  - apply (proj1 (generateDataset_shapes "circle" (fun _ => 0.25))). discriminate.
  - apply (proj2 (generateDataset_shapes "sine" (fun _ => 0.25))). reflexivity.
Defined.

(** Changing the dataset regenerates it but keeps the epoch counter and the
    stored predictions, which still belong to the previous dataset; the next
    Run Predictions then never throws and stores exactly one prediction per
    sample of the new dataset, 4 or 100 of them. *)
Theorem dataset_change_then_predict (s : State) (g g' : RandomSource) (value : string) :
  dataset_id (trainingConfig (handleTrainingConfigChange (ChangeDataset value) s g).1) = value /\
  dataset (handleTrainingConfigChange (ChangeDataset value) s g).1 = (generateDataset value g).1 /\
  predictions (handleTrainingConfigChange (ChangeDataset value) s g).1 = predictions s /\
  trainingProgress (handleTrainingConfigChange (ChangeDataset value) s g).1 = trainingProgress s /\
  length (predictions (makePredictions (handleTrainingConfigChange (ChangeDataset value) s g).1 g').1)
    = length (inputs (generateDataset value g).1) /\
  (length (inputs (generateDataset value g).1) = 4%nat \/
   length (inputs (generateDataset value g).1) = 100%nat).
Proof.
  assert (Hstate : forall d g1,
             generateDataset value g = (d, g1) ->
             (handleTrainingConfigChange (ChangeDataset value) s g).1
             = setDataset d
                 (setTrainingConfig
                    {| learningRate := learningRate (trainingConfig s);
                       epochs := epochs (trainingConfig s);
                       batchSize := batchSize (trainingConfig s);
                       dataset_id := value |} s)).
  { intros d g1 Hd. unfold handleTrainingConfigChange, mbind, Rnd_bind. rewrite Hd. reflexivity. }
  destruct (generateDataset value g) as [d g1] eqn:Hd.
  rewrite (Hstate d g1 eq_refl). cbn [fst].
  do 4 (split; [reflexivity |]).
  assert (Hok : samples_ok d).
  { pose proof (generateDataset_samples_ok value g) as H. rewrite Hd in H. exact H. }
  split.
  - destruct Hok as [Hlen _].
    destruct (array_map_predict_total d (inputs d) 0 g') as [ps Hps]; [cbn; lia |].
    destruct (array_map_predict_returns d (inputs d) 0 g' ps Hps) as [Hn _].
    unfold makePredictions, mbind, Rnd_bind. cbn [dataset setDataset].
    unfold simulatedPredictions.
    destruct (array_map (predict_sample d) 0 (inputs d) g') as [r g2].
    cbn in Hps. subst r. exact Hn.
  - assert (Hd' : d = (generateDataset value g).1) by (rewrite Hd; reflexivity).
    rewrite Hd'. clear.
    destruct (String.eqb_spec value "xor") as [-> | Hx]; [left; reflexivity |].
    destruct (String.eqb_spec value "circle") as [-> | Hc].
    { right. rewrite generateDataset_circle. cbn [inputs]. rewrite length_fmap. reflexivity. }
    destruct (String.eqb_spec value "sine") as [-> | Hs].
    { right. rewrite generateDataset_sine. cbn [fst inputs]. rewrite length_fmap. reflexivity. }
    left. destruct (generateDataset_xor_fallback g value Hx Hc Hs) as [-> _]. reflexivity.
Qed.

(** ** Canvas axes *)







(** ** Training chart *)

Lemma chart_y_loss (v : R) : loss_range v -> 16 < chart_y 200 v <= 156.
Proof. unfold loss_range, chart_y. intros H. lra. Qed.

Lemma chart_y_accuracy (v : R) : accuracy_range v -> 32.8 <= chart_y 200 v < 170.
Proof. unfold accuracy_range, chart_y. intros H. lra. Qed.

(** On the 300 x 200 metrics canvas every point of both curves of a run is
    inside the canvas: abscissas run from 30 to 270, a loss is drawn between
    16 (above the top of the axis at 30, when the loss exceeds 1) and 156,
    an accuracy between 32.8 and 170. *)
Theorem training_chart_inside_canvas (s : State) (g : RandomSource) (k : nat) :
  intervals s = [] ->
  (1 <= epochs (trainingConfig s))%Z ->
  uniform01 g ->
  Forall (fun v => 16 < chart_y 200 v <= 156)
    (loss (trainingStats (ticks k (next_interval_id s) (startTraining s) g).1)) /\
  Forall (fun v => 32.8 <= chart_y 200 v < 170)
    (accuracy (trainingStats (ticks k (next_interval_id s) (startTraining s) g).1)) /\
  forall n i : nat, (2 <= n)%nat -> (i < n)%nat -> 30 <= chart_x 300 n i <= 270.
Proof.
  intros Hnone HE Hg.
  set (tm := {| timer_id := next_interval_id s; timer_epochs := epochs (trainingConfig s) |}).
  destruct (ticks_from k tm (startTraining s) g) as (_ & _ & _ & _ & _ & Hb);
    [cbn; rewrite Hnone; reflexivity | cbn; lia |].
  destruct (Hb Hg) as [Hl Ha]; [constructor | constructor |].
  split; [| split].
  - eapply Forall_impl; [exact Hl | exact chart_y_loss].
  - eapply Forall_impl; [exact Ha | exact chart_y_accuracy].
  - intros n i Hn Hi. unfold chart_x.
    assert (H1 : 1 <= INR n - 1).
    { assert (H2n : INR 2 <= INR n) by (apply le_INR; exact Hn).
      simpl in H2n. lra. }
    assert (H2 : 0 <= INR i) by apply pos_INR.
    assert (H3 : INR i <= INR n - 1).
    { replace (INR n - 1) with (INR (n - 1)).
      - apply le_INR. lia.
      - rewrite minus_INR by lia. simpl. lra. }
    assert (Hinv : 0 < / (INR n - 1)) by (apply Rinv_0_lt_compat; lra).
    assert (Hq : 0 <= INR i / (INR n - 1) <= 1).
    { unfold Rdiv. split.
      - apply Rmult_le_pos; lra.
      - apply (Rmult_le_reg_r (INR n - 1)); [lra |].
        rewrite Rmult_assoc, Rinv_l by lra. lra. }
    lra.
Qed.

Lemma training_chart_inside_canvas_witness :
  Forall (fun v => 16 < chart_y 200 v <= 156)
    (loss (trainingStats (ticks 40 1 (startTraining initialState) (fun _ => 0.5)).1)).
Proof.
  apply (training_chart_inside_canvas initialState (fun _ => 0.5) 40).
  - reflexivity.
  - simpl. lia.
  - intros n. lra.
Defined.

(** ** Layout of the network diagram *)

Lemma fold_height_ge_init (tl : list (LayerType * Z)) (acc : R) :
  acc <= fold_left (fun max layer => Rmax max (IZR layer.2 * 40)) tl acc.
Proof.
  revert acc. induction tl as [| a tl IH]; intros acc; [apply Rle_refl |].
  cbn [fold_left]. eapply Rle_trans; [apply Rmax_l | apply IH].
Qed.

Lemma fold_height_ge (tl : list (LayerType * Z)) (acc : R) (layer : LayerType * Z) :
  layer ∈ tl ->
  IZR layer.2 * 40 <= fold_left (fun max layer => Rmax max (IZR layer.2 * 40)) tl acc.
Proof.
  revert acc. induction tl as [| a tl IH]; intros acc Hin.
  - apply elem_of_nil in Hin. contradiction.
  - cbn [fold_left]. apply elem_of_cons in Hin as [-> | Hin].
    + eapply Rle_trans; [apply Rmax_r | apply fold_height_ge_init].
    + apply IH. exact Hin.
Qed.

Lemma svgHeight_fits (tl : list (LayerType * Z)) (layer : LayerType * Z) :
  layer ∈ tl -> IZR layer.2 * 40 + 80 <= svgHeight tl /\ 400 <= svgHeight tl.
Proof.
  intros Hin. unfold svgHeight. split.
  - eapply Rle_trans; [| apply Rmax_r].
    apply Rplus_le_compat_r, fold_height_ge. exact Hin.
  - apply Rmax_l.
Qed.

Lemma layerNeurons_drawable (width height : R) (layerCount index : nat) (layer : LayerType * Z) :
  drawable layer ->
  layerNeurons width height layerCount index layer
  = Some (columnNeurons width height layerCount index layer).
Proof.
  unfold drawable, layerNeurons, array_from_length. intros H.
  destruct (Z.leb_spec 4294967296 layer.2); [lia | reflexivity].
Qed.


Lemma layerNeurons_Some (width height : R) (layerCount index : nat) (layer : LayerType * Z)
    (column : list Neuron) :
  layerNeurons width height layerCount index layer = Some column ->
  column = columnNeurons width height layerCount index layer.
Proof.
  unfold layerNeurons, array_from_length.
  destruct (Z.leb_spec 4294967296 layer.2); [discriminate |].
  intros [= <-]. reflexivity.
Qed.

(** When the [flatMap] returns, it returns the columns one after another. *)
Lemma flatMap_columns (width height : R) (layerCount : nat) (l : list (LayerType * Z)) :
  forall (off : nat) (ns : list Neuron),
    array_flatMap (layerNeurons width height layerCount) off l = Some ns ->
    ns = mjoin (imap (fun i => columnNeurons width height layerCount (off + i)) l).
Proof.
  induction l as [| a l IH]; intros off ns Hns.
  - injection Hns as <-. reflexivity.
  - cbn [array_flatMap] in Hns.
    destruct (layerNeurons width height layerCount off a) as [column |] eqn:Hcol;
      [| discriminate Hns].
    apply layerNeurons_Some in Hcol as ->. cbn in Hns.
    destruct (array_flatMap (layerNeurons width height layerCount) (S off) l) as [rest |] eqn:Hrest;
      [| discriminate Hns].
    cbn in Hns. injection Hns as <-.
    rewrite imap_cons, Nat.add_0_r.
    change (mjoin (?c :: ?ls)) with (c ++ mjoin ls). f_equal.
    rewrite (IH (S off) rest Hrest). f_equal. apply imap_ext.
    intros i x _. cbn [compose]. f_equal. lia.
Qed.

Lemma flatMap_drawable (width height : R) (layerCount : nat) (l : list (LayerType * Z)) :
  Forall drawable l ->
  forall off : nat, is_Some (array_flatMap (layerNeurons width height layerCount) off l).
Proof.
  induction 1 as [| a l Ha _ IH]; intros off; [eexists; reflexivity |].
  cbn [array_flatMap]. rewrite (layerNeurons_drawable _ _ _ _ a Ha). cbn.
  destruct (IH (S off)) as [rest ->]. eexists. reflexivity.
Qed.


Lemma designerNeurons_Some (width height : R) (tl : list (LayerType * Z)) (ns : list Neuron) :
  designerNeurons width height tl = Some ns ->
  ns = mjoin (imap (columnNeurons width height (length tl)) tl).
Proof. intros H. apply (flatMap_columns width height (length tl) tl 0 ns H). Qed.

(** With the height the resize effect computes, every neuron of the diagram
    is drawn inside the picture: its centre is strictly between the left and
    right edges and at least 60 units from the top and from the bottom, so
    the circle of radius 12 is fully visible; layers are laid out left to
    right at [(index + 1) / (layerCount + 1)] of the width. The neurons are
    built whenever every neuron count is below 2^32. *)
Theorem designer_neurons_inside (width : R) (tl : list (LayerType * Z)) :
  0 < width ->
  (Forall drawable tl -> is_Some (designerNeurons width (svgHeight tl) tl)) /\
  forall (neurons : list Neuron) (nr : Neuron),
    designerNeurons width (svgHeight tl) tl = Some neurons ->
    nr ∈ neurons ->
    0 < neuron_x nr < width /\
    neuron_x nr = (INR (layerIndex nr) + 1) / (INR (length tl) + 1) * width /\
    60 <= neuron_y nr <= svgHeight tl - 60 /\
    (layerIndex nr < length tl)%nat.
Proof.
  intros Hw. split; [intros Hd; apply flatMap_drawable, Hd |].
  intros neurons nr Hns Hin. apply designerNeurons_Some in Hns as ->.
  apply list_elem_of_join in Hin as (l & Hnr & Hl).
  apply elem_of_lookup_imap in Hl as (i & layer & -> & Hlayer).
  unfold columnNeurons in Hnr.
  apply list_elem_of_fmap in Hnr as (k & -> & Hk).
  apply elem_of_seq in Hk. unfold drawn in Hk. cbn [neuron_x neuron_y layerIndex].
  assert (Hi : (i < length tl)%nat) by (eapply lookup_lt_Some, Hlayer).
  assert (Hmem : layer ∈ tl) by (eapply list_elem_of_lookup_2, Hlayer).
  destruct (svgHeight_fits tl layer Hmem) as [Hfit _].
  assert (HL : 0 < INR (length tl) + 1) by (pose proof (pos_INR (length tl)); lra).
  assert (Hinv : 0 < / (INR (length tl) + 1)) by (apply Rinv_0_lt_compat; exact HL).
  assert (Hi0 : 0 <= INR i) by apply pos_INR.
  assert (Hi1 : INR i + 1 <= INR (length tl)).
  { rewrite <- S_INR. apply le_INR. lia. }
  assert (Hk0 : 0 <= INR k) by apply pos_INR.
  assert (Hk1 : INR k + 1 <= IZR layer.2).
  { rewrite INR_IZR_INZ, <- plus_IZR. apply IZR_le. lia. }
  assert (Hq : 0 < (INR i + 1) * / (INR (length tl) + 1) < 1).
  { split.
    - apply Rmult_lt_0_compat; lra.
    - apply (Rmult_lt_reg_r (INR (length tl) + 1)); [lra |].
      rewrite Rmult_assoc, Rinv_l by lra. lra. }
  split; [| split; [| split]].
  - unfold Rdiv. split; nra.
  - unfold Rdiv. ring.
  - lra.
  - exact Hi.
Qed.

Lemma designer_neurons_inside_witness :
  exists neurons nr,
    designerNeurons 600 (svgHeight [(input, 2%Z); (hidden, 4%Z); (output, 1%Z)])
      [(input, 2%Z); (hidden, 4%Z); (output, 1%Z)] = Some neurons /\
    neurons !! 3%nat = Some nr /\
    0 < neuron_x nr < 600 /\
    60 <= neuron_y nr.
Proof.
  destruct (designer_neurons_inside 600 [(input, 2%Z); (hidden, 4%Z); (output, 1%Z)])
    as [_ Hin]; [lra |].
  eexists _, _. split; [reflexivity |]. split; [reflexivity |].
  match goal with
  | |- 0 < neuron_x ?nr < _ /\ _ =>
      destruct (Hin _ nr eq_refl) as (Hx & _ & [Hy _] & _)
  end.
  - do 3 apply elem_of_cons, or_intror. apply elem_of_cons. left. reflexivity.
  - split; [exact Hx | exact Hy].
Defined.














Lemma inner_layers_typed (rest : list (option Layer)) :
  Forall inner_layer rest ->
  exists tl, mapM typed_layer rest = Some tl /\ length tl = length rest.
Proof.
  induction 1 as [| slot rest (t & n & a & -> & _ & _) _ (tl & Htl & Hlen)].
  - exists []. split; reflexivity.
  - exists ((t, n) :: tl). split; [| cbn; lia].
    cbn. rewrite Htl. reflexivity.
Qed.

(** The diagram can always be laid out: on every topology the designer can
    reach, each slot holds a layer with a kind and a neuron count, so the
    layout code never reads a missing property; the first column is the input
    layer with its two neurons. *)
Theorem designer_reachable_typed (c : NetworkConfig) :
  designer_reachable c ->
  exists tl,
    typed_layers c = Some ((input, 2%Z) :: tl) /\
    S (length tl) = length (layers c) /\
    tl ≠ [].
Proof.
  intros Hc. destruct (reachable_layers c Hc) as (rest & Hl & Hne & Hrest).
  destruct (inner_layers_typed rest Hrest) as (tl & Htl & Hlen).
  exists tl. unfold typed_layers. rewrite Hl. cbn. rewrite Htl. cbn.
  split; [reflexivity |]. split; [lia |].
  intros ->. destruct rest; [congruence | discriminate Hlen].
Qed.

Lemma designer_reachable_typed_witness :
  exists tl,
    typed_layers (handle_event defaultNetworkConfig (ChangeNeurons 1 (Some 7%Z)))
    = Some ((input, 2%Z) :: tl) /\
    S (length tl) = 3%nat.
Proof.
  destruct (designer_reachable_typed
              (handle_event defaultNetworkConfig (ChangeNeurons 1 (Some 7%Z))))
    as (tl & Htl & Hlen & _).
  - apply reachable_event; [apply reachable_default | reflexivity].
  - exists tl. split; [exact Htl | exact Hlen].
Defined.

(** Typing in a neurons field the designer offers: the layer gets the parsed
    count, or 1 when the text is empty, not a number or 0; its kind and
    activation stay, and no other layer and not the number of layers
    changes. *)
Theorem designer_change_neurons (c : NetworkConfig) (index : nat) (parsed : option Z) :
  event_enabled c (ChangeNeurons index parsed) = true ->
  exists layer,
    layers c !! index = Some (Some layer) /\
    layers (handle_event c (ChangeNeurons index parsed))
    = <[index := Some {| type := type layer;
                         neurons := Some (parsed_or_one parsed);
                         activation := activation layer |}]> (layers c) /\
    parsed_or_one parsed ≠ 0%Z /\
    (parsed = None \/ parsed = Some 0%Z -> parsed_or_one parsed = 1%Z).
Proof.
  cbn [event_enabled handle_event]. intros Hen.
  destruct (array_get (Z.of_nat index) (layers c)) as [layer |] eqn:Hget; [| discriminate].
  destruct (array_get_Some_lt _ _ _ Hget) as [Hl Hlt].
  exists layer. split; [exact Hl |]. split; [| split].
  - unfold handleUpdateLayer. cbn [layers]. rewrite Hget, array_set_inside by exact Hlt.
    reflexivity.
  - apply parsed_or_one_nonzero.
  - intros [-> | ->]; reflexivity.
Qed.

Lemma designer_change_neurons_witness :
  (slot_kind <$> layers (handle_event defaultNetworkConfig (ChangeNeurons 1 None)),
   (fun slot => slot ≫= neurons) <$> layers (handle_event defaultNetworkConfig (ChangeNeurons 1 None)))
  = ([Some input; Some hidden; Some output], [Some 2%Z; Some 1%Z; Some 1%Z]).
Proof.
  destruct (designer_change_neurons defaultNetworkConfig 1 None) as (layer & Hl & -> & _);
    [reflexivity |].
  cbn in Hl. injection Hl as <-. reflexivity.
Defined.

(** ** What a tick leaves alone, and runs one after another *)

Lemma interval_callback_frame (tm : Timer) (s : State) (g : RandomSource) :
  networkConfig (interval_callback tm s g).1 = networkConfig s /\
  trainingConfig (interval_callback tm s g).1 = trainingConfig s /\
  predictions (interval_callback tm s g).1 = predictions s /\
  dataset (interval_callback tm s g).1 = dataset s /\
  next_interval_id (interval_callback tm s g).1 = next_interval_id s.
Proof.
  unfold interval_callback.
  destruct (trainingProgress s + 1 >=? timer_epochs tm)%Z; repeat split.
Qed.

Lemma run_interval_frame (fuel : nat) :
  forall (tid : nat) (s s' : State) (g g' : RandomSource) (n : nat),
    run_interval fuel tid s g = (Some (n, s'), g') ->
    networkConfig s' = networkConfig s /\
    trainingConfig s' = trainingConfig s /\
    predictions s' = predictions s /\
    dataset s' = dataset s /\
    next_interval_id s' = next_interval_id s.
Proof.
  induction fuel as [| fuel IH]; intros tid s s' g g' n Hrun; cbn [run_interval] in Hrun.
  - destruct (find_timer tid s); [discriminate Hrun |].
    injection Hrun as <- <- <-. repeat split.
  - destruct (find_timer tid s) as [tm |]; [| injection Hrun as <- <- <-; repeat split].
    unfold mbind, Rnd_bind in Hrun.
    destruct (interval_callback_frame tm s g) as (H1 & H2 & H3 & H4 & H5).
    destruct (interval_callback tm s g) as [s1 g1]. cbn [fst] in *.
    destruct (run_interval fuel tid s1 g1) as [[[m s2] |] g2] eqn:Hrest;
      cbn in Hrun; [| discriminate Hrun].
    injection Hrun as <- <- <-.
    destruct (IH tid s1 s2 g1 g2 m Hrest) as (K1 & K2 & K3 & K4 & K5).
    rewrite K1, K2, K3, K4, K5. repeat split; assumption.
Qed.

(** Ticks touch nothing but the epoch counter, the two series, the running
    flag and the timer table: after any number of ticks of any timer the
    topology, the training settings, the dataset and the stored predictions
    are what they were. *)
Theorem ticks_frame (k : nat) (tid : nat) (s : State) (g : RandomSource) :
  networkConfig (ticks k tid s g).1 = networkConfig s /\
  trainingConfig (ticks k tid s g).1 = trainingConfig s /\
  predictions (ticks k tid s g).1 = predictions s /\
  dataset (ticks k tid s g).1 = dataset s.
Proof.
  revert s g. induction k as [| k IH]; intros s g; [repeat split |].
  cbn [ticks]. unfold mbind, Rnd_bind, tick.
  destruct (find_timer tid s) as [tm |].
  - destruct (interval_callback_frame tm s g) as (H1 & H2 & H3 & H4 & _).
    destruct (interval_callback tm s g) as [s1 g1]. cbn [fst] in *.
    destruct (IH s1 g1) as (K1 & K2 & K3 & K4).
    rewrite K1, K2, K3, K4. repeat split; assumption.
  - apply IH.
Qed.

(** A completed run leaves no timer behind, so Start can be pressed again and
    the second run is again a full run: [E] ticks, [trainingProgress = E],
    and series that were restarted from empty, with [E - 1] values. *)
Theorem training_run_twice (s : State) (g : RandomSource) (fuel : nat) :
  intervals s = [] ->
  (1 <= epochs (trainingConfig s))%Z ->
  (Z.to_nat (epochs (trainingConfig s)) <= fuel)%nat ->
  exists s1 g1 s2 g2,
    run_interval fuel (next_interval_id s) (startTraining s) g
      = (Some (Z.to_nat (epochs (trainingConfig s)), s1), g1) /\
    run_interval fuel (next_interval_id s1) (startTraining s1) g1
      = (Some (Z.to_nat (epochs (trainingConfig s)), s2), g2) /\
    trainingProgress s2 = epochs (trainingConfig s) /\
    isTraining s2 = false /\
    intervals s2 = [] /\
    Z.of_nat (length (loss (trainingStats s2))) = (epochs (trainingConfig s) - 1)%Z.
Proof.
  intros Hnone HE Hfuel.
  set (E := epochs (trainingConfig s)) in *.
  destruct (run_interval_completes (Z.to_nat E - 1) fuel
              {| timer_id := next_interval_id s; timer_epochs := E |} (startTraining s) g)
    as (s1 & g1 & Hrun1 & _ & _ & Hi1 & _);
    [cbn; rewrite Hnone; reflexivity | cbn; lia | lia |].
  cbn [timer_id] in Hrun1.
  destruct (run_interval_frame fuel _ _ _ _ _ _ Hrun1) as (_ & Hcfg & _ & _ & _).
  cbn in Hcfg.
  destruct (run_interval_completes (Z.to_nat E - 1) fuel
              {| timer_id := next_interval_id s1; timer_epochs := E |} (startTraining s1) g1)
    as (s2 & g2 & Hrun2 & Hp2 & Ht2 & Hi2 & Hl2 & _);
    [cbn; rewrite Hi1, Hcfg; reflexivity | cbn; lia | lia |].
  cbn in Hrun2, Hp2, Hl2.
  replace (S (Z.to_nat E - 1)) with (Z.to_nat E) in Hrun1, Hrun2 by lia.
  exists s1, g1, s2, g2. split; [exact Hrun1 |]. split; [exact Hrun2 |].
  split; [exact Hp2 |]. split; [exact Ht2 |]. split; [exact Hi2 |]. lia.
Qed.

Lemma training_run_twice_witness :
  exists s1 g1 s2 g2,
    run_interval 10 1 (startTraining (initialStateWithEpochs 10)) (fun _ => 0)
      = (Some (10%nat, s1), g1) /\
    run_interval 10 (next_interval_id s1) (startTraining s1) g1 = (Some (10%nat, s2), g2) /\
    trainingProgress s2 = 10%Z.
Proof.
  destruct (training_run_twice (initialStateWithEpochs 10) (fun _ => 0) 10)
    as (s1 & g1 & s2 & g2 & H1 & H2 & Hp & _); [reflexivity | simpl; lia | simpl; lia |].
  exists s1, g1, s2, g2. split; [exact H1 |]. split; [exact H2 | exact Hp].
Defined.


